(** * Travel planner API: forecast normalisation and activity scoring

  A shallow embedding of [src/services/WeatherService.ts] (the forecast
  normaliser [mapToForecast]) and of [src/services/ActivityService.ts] (the
  scoring engine [rankActivities] with its four scorers), followed by the
  properties established about them.

  JavaScript numbers are IEEE 754 binary64 values.  They are modelled by the
  Standard Library's executable specification of binary floating point
  ([SpecFloat], precision 53, maximal exponent 1024), so that additions,
  divisions and comparisons round and treat NaN exactly as the engine does. *)

From Stdlib Require Import ZArith List Bool Lia String Permutation Sorted SpecFloat.
Import ListNotations.

Set Implicit Arguments.

(* ------------------------------------------------------------------------- *)
(** ** JavaScript numbers *)
(* ------------------------------------------------------------------------- *)

Module JS.

Definition number : Type := spec_float.

Definition prec : Z := 53.
Definition emax : Z := 1024.

Definition NaN : number := S754_nan.

(** An integer literal such as [24] or [-20]. *)
Definition lit (z : Z) : number := binary_normalize prec emax z 0 false.

Definition add (x y : number) : number := SFadd prec emax x y.
Definition sub (x y : number) : number := SFsub prec emax x y.
Definition div (x y : number) : number := SFdiv prec emax x y.

(** A decimal literal [n / 10^k]: the source text [0.6] denotes the binary64
    value nearest to six tenths, which is what the correctly rounded
    quotient of the two exactly representable integers gives. *)
Definition dec (n : Z) (k : nat) : number := div (lit n) (lit (10 ^ Z.of_nat k)).

(** The relational operators; every comparison with NaN is [false]. *)
Definition lt (x y : number) : bool := SFltb x y.
Definition le (x y : number) : bool := SFleb x y.
Definition gt (x y : number) : bool := SFltb y x.
Definition ge (x y : number) : bool := SFleb y x.

(** [Math.max] and [Math.min] on two arguments: NaN is contagious and
    [+0] is larger than [-0]. *)
Definition Math_max (x y : number) : number :=
  match SFcompare x y with
  | None => NaN
  | Some Lt => y
  | Some Gt => x
  | Some Eq => match x with S754_zero true => y | _ => x end
  end.

Definition Math_min (x y : number) : number :=
  match SFcompare x y with
  | None => NaN
  | Some Lt => x
  | Some Gt => y
  | Some Eq => match x with S754_zero false => y | _ => x end
  end.

(** [a.length] as a number. *)
Definition length {A : Type} (a : list A) : number :=
  lit (Z.of_nat (List.length a)).

(** [a.slice(start, end)] for non-negative integer bounds. *)
Definition slice {A : Type} (start end_ : nat) (a : list A) : list A :=
  firstn (end_ - start) (skipn start a).

(** [a.sort(comparefn)].  The language requires the sort to be stable; a
    comparator result that is not greater than zero (NaN included, which
    the language reads as [+0]) leaves the earlier element first.  The
    model is the stable insertion sort. *)
Section Sort.
Context {A : Type}.
Variable comparefn : A -> A -> number.

Fixpoint insert (x : A) (sorted : list A) : list A :=
  match sorted with
  | [] => [x]
  | y :: rest =>
      if gt (comparefn x y) (lit 0) then y :: insert x rest
      else x :: y :: rest
  end.

Fixpoint sort (a : list A) : list A :=
  match a with
  | [] => []
  | x :: rest => insert x (sort rest)
  end.
End Sort.

(** Text built by template literals.  [x.toFixed(d)] is kept symbolic as
    [Fixed x d]; everything else is literal text. *)
Inductive piece : Type :=
| Text (s : string)
| Fixed (x : number) (digits : nat).

Definition text : Type := list piece.

(** [a.join(sep)]. *)
Definition join (sep : string) (a : list text) : text :=
  match a with
  | [] => []
  | first :: rest => first ++ flat_map (fun t => Text sep :: t) rest
  end.

End JS.

Declare Scope js_scope.
Delimit Scope js_scope with js.
Notation "x + y" := (JS.add x y) : js_scope.
Notation "x - y" := (JS.sub x y) : js_scope.
Notation "x / y" := (JS.div x y) : js_scope.
Notation "x < y" := (JS.lt x y) : js_scope.
Notation "x <= y" := (JS.le x y) : js_scope.
Notation "x > y" := (JS.gt x y) : js_scope.
Notation "x >= y" := (JS.ge x y) : js_scope.

(* ------------------------------------------------------------------------- *)
(** ** Domain types ([src/types]) *)
(* ------------------------------------------------------------------------- *)

Module Types.
Import JS.

Record City : Type := {
  id : number;
  city_name : string;
  country : string;
  countryCode : string;
  latitude : number;
  longitude : number;
  city_timezone : string;
  population : option number;
  admin1 : option string
}.

Record HourlyWeather : Type := {
  time : string;
  temperature2m : number;
  windspeed10m : number;
  precipitation : number;
  weathercode : number;
  snowDepth : option number;
  waveHeight : option number
}.

Record DailyWeather : Type := {
  date : string;
  temperatureMax : number;
  temperatureMin : number;
  precipitationSum : number;
  windspeedMax : number;
  daily_weathercode : number
}.

Record WeatherForecast : Type := {
  city : City;
  current : HourlyWeather;
  hourly : list HourlyWeather;
  daily : list DailyWeather;
  timezone : string
}.

Inductive ActivityType : Type :=
| SKIING
| SURFING
| INDOOR_SIGHTSEEING
| OUTDOOR_SIGHTSEEING.

Record Activity : Type := {
  type : ActivityType;
  name : string;
  score : number;
  suitable : bool;
  reason : text
}.

End Types.

(* ------------------------------------------------------------------------- *)
(** ** The scoring engine ([src/services/ActivityService.ts]) *)
(* ------------------------------------------------------------------------- *)

Module ActivityService.
Import JS Types.
Local Open Scope js_scope.
Local Open Scope string_scope.

(** [average]: zero on the empty array, else the left-to-right sum divided
    by the length. *)
Definition average (values : list number) : number :=
  if Nat.eqb (List.length values) 0 then lit 0
  else fold_left (fun sum v => sum + v) values (lit 0) / JS.length values.

(** [hours.filter(h => h.weathercode <= 3).length] *)
Definition clearHours (hours : list HourlyWeather) : number :=
  JS.length (filter (fun h => weathercode h <= lit 3) hours).

(** [Math.min(100, Math.max(0, score))] *)
Definition clamp (score : number) : number :=
  Math_min (lit 100) (Math_max (lit 0) score).

(** The two locals every scorer threads through its rules:
    [let score] and [const reasons]. *)
Definition state : Type := number * list text.

Definition push (reasons : list text) (r : text) : list text := reasons ++ [r].

(** *** Skiing *)

(** Temperature rule (source lines 87-93). *)
Definition skiingTemperature (avgTemp : number) (st : state) : state :=
  let '(score, reasons) := st in
  if (avgTemp >= lit (-20)) && (avgTemp <= lit 2) then
    let tempScore := if avgTemp <= lit (-2) then lit 35 else lit 20 in
    (score + tempScore,
     push reasons [Text "temperature "; Fixed avgTemp 1; Text "°C is ";
                   Text (if avgTemp <= lit (-2) then "ideal" else "marginal");
                   Text " for snow"])
  else
    (score,
     push reasons [Text "temperature "; Fixed avgTemp 1; Text "°C is too ";
                   Text (if avgTemp > lit 2 then "warm" else "extreme");
                   Text " for skiing"]).

(** Snow depth rule (source lines 96-104). *)
Definition skiingSnow (avgSnow : number) (st : state) : state :=
  let '(score, reasons) := st in
  if avgSnow >= lit 30 then
    (score + lit 40,
     push reasons [Text "good snow depth ("; Fixed avgSnow 0; Text " cm)"])
  else if avgSnow >= lit 10 then
    (score + lit 20,
     push reasons [Text "moderate snow depth ("; Fixed avgSnow 0; Text " cm)"])
  else
    (score, push reasons [Text "insufficient snow depth"]).

(** Wind rule (source lines 107-113). *)
Definition skiingWind (avgWind : number) (st : state) : state :=
  let '(score, reasons) := st in
  if avgWind > lit 60 then
    (Math_max (lit 0) (score - lit 30),
     push reasons [Text "high winds ("; Fixed avgWind 0; Text " km/h) are dangerous"])
  else if avgWind <= lit 30 then
    (score + lit 15, push reasons [Text "calm winds"])
  else st.

(** Fresh powder rule (source lines 116-119). *)
Definition skiingPowder (totalPrecip avgTemp : number) (st : state) : state :=
  let '(score, reasons) := st in
  if (totalPrecip > lit 0) && (totalPrecip <= lit 2) && (avgTemp < lit 0) then
    (score + lit 10, push reasons [Text "light snowfall expected (fresh powder)"])
  else st.

Definition scoreSkiing (hours : list HourlyWeather) : Activity :=
  let avgTemp := average (map temperature2m hours) in
  let avgWind := average (map windspeed10m hours) in
  let avgSnow :=
    average (map (fun h => match snowDepth h with
                           | Some d => d
                           | None => lit 0
                           end) hours) in
  let totalPrecip := average (map precipitation hours) in
  let st : state := (lit 0, []) in
  let st := skiingTemperature avgTemp st in
  let st := skiingSnow avgSnow st in
  let st := skiingWind avgWind st in
  let st := skiingPowder totalPrecip avgTemp st in
  let score := clamp (fst st) in
  {| type := SKIING;
     name := "Skiing";
     score := score;
     suitable := score >= lit 60;
     reason := join "; " (snd st) |}.

(** *** Surfing *)

(** Temperature rule (source lines 144-153). *)
Definition surfingTemperature (avgTemp : number) (st : state) : state :=
  let '(score, reasons) := st in
  if (avgTemp >= lit 18) && (avgTemp <= lit 32) then
    (score + lit 30,
     push reasons [Text "comfortable air temperature ("; Fixed avgTemp 1; Text "°C)"])
  else if avgTemp >= lit 12 then
    (score + lit 15,
     push reasons [Text "cool but manageable temperature ("; Fixed avgTemp 1;
                   Text "°C)"])
  else
    (score,
     push reasons [Text "cold temperature ("; Fixed avgTemp 1;
                   Text "°C) makes surfing uncomfortable"]).

(** Wind rule (source lines 156-168). *)
Definition surfingWind (avgWind : number) (st : state) : state :=
  let '(score, reasons) := st in
  if (avgWind >= lit 10) && (avgWind <= lit 30) then
    (score + lit 40,
     push reasons [Text "ideal wind speed ("; Fixed avgWind 0; Text " km/h) for waves"])
  else if (avgWind > lit 30) && (avgWind <= lit 50) then
    (score + lit 15,
     push reasons [Text "strong winds ("; Fixed avgWind 0;
                   Text " km/h) — experienced surfers only"])
  else if avgWind < lit 10 then
    (score + lit 20,
     push reasons [Text "light winds ("; Fixed avgWind 0;
                   Text " km/h) — flat water likely"])
  else
    (Math_max (lit 0) (score - lit 20),
     push reasons [Text "dangerous winds ("; Fixed avgWind 0; Text " km/h)"]).

(** Rain rule (source lines 171-180). *)
Definition surfingPrecipitation (avgPrecip : number) (st : state) : state :=
  let '(score, reasons) := st in
  if avgPrecip < lit 1 then
    (score + lit 20, push reasons [Text "dry conditions"])
  else if avgPrecip < lit 5 then
    (score + lit 10, push reasons [Text "light rain expected"])
  else
    (score - lit 10, push reasons [Text "heavy rain expected"]).

(** The ratio tested by the clear-sky rule, [clearHours / hours.length]
    (source line 186). *)
Definition surfingClearRatio (hours : list HourlyWeather) : number :=
  clearHours hours / JS.length hours.

(** Clear-sky rule (source lines 185-189). *)
Definition surfingClearSky (hours : list HourlyWeather) (st : state) : state :=
  let '(score, reasons) := st in
  if surfingClearRatio hours >= dec 6 1 then
    (score + lit 10, push reasons [Text "mostly clear skies"])
  else st.

Definition scoreSurfing (hours : list HourlyWeather) : Activity :=
  let avgTemp := average (map temperature2m hours) in
  let avgWind := average (map windspeed10m hours) in
  let avgPrecip := average (map precipitation hours) in
  let st : state := (lit 0, []) in
  let st := surfingTemperature avgTemp st in
  let st := surfingWind avgWind st in
  let st := surfingPrecipitation avgPrecip st in
  let st := surfingClearSky hours st in
  let score := clamp (fst st) in
  {| type := SURFING;
     name := "Surfing";
     score := score;
     suitable := score >= lit 60;
     reason := join "; " (snd st) |}.

(** *** Indoor sightseeing *)

(** Rain rule (source lines 214-220). *)
Definition indoorPrecipitation (avgPrecip : number) (st : state) : state :=
  let '(score, reasons) := st in
  if avgPrecip >= lit 5 then
    (score + lit 30,
     push reasons [Text "heavy rain ("; Fixed avgPrecip 1;
                   Text " mm/h) makes indoors appealing"])
  else if avgPrecip >= lit 2 then
    (score + lit 15, push reasons [Text "moderate rain expected"])
  else st.

(** Temperature rule (source lines 225-231). *)
Definition indoorTemperature (avgTemp : number) (st : state) : state :=
  let '(score, reasons) := st in
  if avgTemp < lit 0 then
    (score + lit 20,
     push reasons [Text "freezing temperatures ("; Fixed avgTemp 1;
                   Text "°C) favour indoor activities"])
  else if avgTemp > lit 35 then
    (score + lit 15,
     push reasons [Text "extreme heat ("; Fixed avgTemp 1;
                   Text "°C) — air-conditioned venues recommended"])
  else st.

(** Wind rule (source lines 233-236). *)
Definition indoorWind (avgWind : number) (st : state) : state :=
  let '(score, reasons) := st in
  if avgWind > lit 60 then
    (score + lit 15, push reasons [Text "strong winds make outdoor activities unsafe"])
  else st.

(** The condition of the great-outdoor-weather rule (source line 239). *)
Definition greatOutdoorWeather (avgPrecip avgTemp avgWind : number) : bool :=
  (avgPrecip < lit 1) && (avgTemp >= lit 18) && (avgTemp <= lit 28)
  && (avgWind < lit 20).

(** Great-outdoor-weather rule (source lines 239-242). *)
Definition indoorGreatOutdoor (avgPrecip avgTemp avgWind : number) (st : state)
  : state :=
  let '(score, reasons) := st in
  if greatOutdoorWeather avgPrecip avgTemp avgWind then
    (score - lit 15,
     push reasons [Text "beautiful outdoor conditions — consider going outside!"])
  else st.

(** Generic message when no rule produced one (source lines 245-247). *)
Definition indoorFallback (st : state) : state :=
  let '(score, reasons) := st in
  if Nat.eqb (List.length reasons) 0 then
    (score,
     push reasons
       [Text "moderate conditions — both indoor and outdoor activities viable"])
  else st.

Definition scoreIndoorSightseeing (hours : list HourlyWeather) : Activity :=
  let avgPrecip := average (map precipitation hours) in
  let avgTemp := average (map temperature2m hours) in
  let avgWind := average (map windspeed10m hours) in
  let st : state := (lit 50, []) in
  let st := indoorPrecipitation avgPrecip st in
  let st := indoorTemperature avgTemp st in
  let st := indoorWind avgWind st in
  let st := indoorGreatOutdoor avgPrecip avgTemp avgWind st in
  let st := indoorFallback st in
  let score := clamp (fst st) in
  {| type := INDOOR_SIGHTSEEING;
     name := "Indoor Sightseeing";
     score := score;
     suitable := score >= lit 60;
     reason := join "; " (snd st) |}.

(** *** Outdoor sightseeing *)

(** [clearHours / Math.max(hours.length, 1)] (source lines 264-265). *)
Definition clearRatio (hours : list HourlyWeather) : number :=
  clearHours hours / Math_max (JS.length hours) (lit 1).

(** Temperature rule (source lines 271-282). *)
Definition outdoorTemperature (avgTemp : number) (st : state) : state :=
  let '(score, reasons) := st in
  if (avgTemp >= lit 15) && (avgTemp <= lit 28) then
    (score + lit 35,
     push reasons [Text "pleasant temperature ("; Fixed avgTemp 1; Text "°C)"])
  else if (avgTemp >= lit 5) && (avgTemp < lit 15) then
    (score + lit 20,
     push reasons [Text "cool but walkable ("; Fixed avgTemp 1;
                   Text "°C) — bring a jacket"])
  else if (avgTemp > lit 28) && (avgTemp <= lit 35) then
    (score + lit 15,
     push reasons [Text "warm ("; Fixed avgTemp 1; Text "°C) — stay hydrated"])
  else
    (score,
     push reasons [Text "temperature ("; Fixed avgTemp 1;
                   Text "°C) is not ideal for outdoor sightseeing"]).

(** Sky rule (source lines 285-293). *)
Definition outdoorSky (ratio : number) (st : state) : state :=
  let '(score, reasons) := st in
  if ratio >= dec 7 1 then
    (score + lit 30, push reasons [Text "mostly clear skies"])
  else if ratio >= dec 4 1 then
    (score + lit 15, push reasons [Text "partly cloudy"])
  else
    (score, push reasons [Text "overcast conditions"]).

(** Rain rule (source lines 296-305). *)
Definition outdoorPrecipitation (avgPrecip : number) (st : state) : state :=
  let '(score, reasons) := st in
  if avgPrecip < dec 5 1 then
    (score + lit 25, push reasons [Text "dry conditions"])
  else if avgPrecip < lit 2 then
    (score + lit 10, push reasons [Text "light rain possible — bring an umbrella"])
  else
    (score - lit 15,
     push reasons [Text "rain expected ("; Fixed avgPrecip 1; Text " mm/h)"]).

(** Wind rule (source lines 308-314). *)
Definition outdoorWind (avgWind : number) (st : state) : state :=
  let '(score, reasons) := st in
  if avgWind > lit 50 then
    (score - lit 20, push reasons [Text "strong winds ("; Fixed avgWind 0; Text " km/h)"])
  else if avgWind < lit 20 then
    (score + lit 10, push reasons [Text "calm winds"])
  else st.

Definition scoreOutdoorSightseeing (hours : list HourlyWeather) : Activity :=
  let avgTemp := average (map temperature2m hours) in
  let avgWind := average (map windspeed10m hours) in
  let avgPrecip := average (map precipitation hours) in
  let st : state := (lit 0, []) in
  let st := outdoorTemperature avgTemp st in
  let st := outdoorSky (clearRatio hours) st in
  let st := outdoorPrecipitation avgPrecip st in
  let st := outdoorWind avgWind st in
  let score := clamp (fst st) in
  {| type := OUTDOOR_SIGHTSEEING;
     name := "Outdoor Sightseeing";
     score := score;
     suitable := score >= lit 60;
     reason := join "; " (snd st) |}.

(** *** Ranking *)

Definition rankActivities (forecast : WeatherForecast) : list Activity :=
  let next24h := slice 0 24 (hourly forecast) in
  let activities :=
    [ scoreSkiing next24h;
      scoreSurfing next24h;
      scoreIndoorSightseeing next24h;
      scoreOutdoorSightseeing next24h ] in
  sort (fun a b => score b - score a) activities.

End ActivityService.

(* ------------------------------------------------------------------------- *)
(** ** The forecast normaliser ([src/services/WeatherService.ts]) *)
(* ------------------------------------------------------------------------- *)

(** The payload is whatever the provider sent: its declared type promises
  a current object, a time zone and arrays of equal length, but nothing
  enforces it at run time.  Every property [mapToForecast] reads may be
  missing and is an [option] ([None] is [undefined]): the current object
  and each of its fields, the time zone and every array; so is the result
  of an indexed read, which is [undefined] past the end of an array.  An
  absent [hourly] or [daily] object is the one without its arrays: reading
  its time array raises the same [TypeError]. *)

Module Payload.
Import JS.

Record Current : Type := {
  time : option string;
  temperature_2m : option number;
  windspeed_10m : option number;
  precipitation : option number;
  weathercode : option number
}.

Record Hourly : Type := {
  hourly_time : option (list string);
  hourly_temperature_2m : option (list number);
  hourly_windspeed_10m : option (list number);
  hourly_precipitation : option (list number);
  hourly_weathercode : option (list number);
  snow_depth : option (list number);
  wave_height : option (list number)
}.

Record Daily : Type := {
  daily_time : option (list string);
  temperature_2m_max : option (list number);
  temperature_2m_min : option (list number);
  precipitation_sum : option (list number);
  windspeed_10m_max : option (list number);
  daily_weathercode : option (list number)
}.

Record OpenMeteoForecastResponse : Type := {
  latitude : number;
  longitude : number;
  timezone : option string;
  current : option Current;
  hourly : Hourly;
  daily : Daily
}.
End Payload.

(** The objects [mapToForecast] really builds: a field holds whatever the
  read of the payload produced, [undefined] included. *)
Module Runtime.
Import JS.

Record HourlyWeather : Type := {
  time : option string;
  temperature2m : option number;
  windspeed10m : option number;
  precipitation : option number;
  weathercode : option number;
  snowDepth : option number
}.

Record DailyWeather : Type := {
  date : string;
  temperatureMax : option number;
  temperatureMin : option number;
  precipitationSum : option number;
  windspeedMax : option number;
  daily_weathercode : option number
}.

Record WeatherForecast : Type := {
  city : Types.City;
  current : HourlyWeather;
  hourly : list HourlyWeather;
  daily : list DailyWeather;
  timezone : option string
}.

(** The view of such an object at its declared type, which exists when no
    required field is [undefined]. *)
Definition typedHour (h : HourlyWeather) : option Types.HourlyWeather :=
  match time h, temperature2m h, windspeed10m h, precipitation h,
        weathercode h with
  | Some s, Some t, Some w, Some p, Some c =>
      Some {| Types.time := s;
              Types.temperature2m := t;
              Types.windspeed10m := w;
              Types.precipitation := p;
              Types.weathercode := c;
              Types.snowDepth := snowDepth h;
              Types.waveHeight := None |}
  | _, _, _, _, _ => None
  end.

Definition typedDay (d : DailyWeather) : option Types.DailyWeather :=
  match temperatureMax d, temperatureMin d, precipitationSum d,
        windspeedMax d, daily_weathercode d with
  | Some hi, Some lo, Some p, Some w, Some c =>
      Some {| Types.date := date d;
              Types.temperatureMax := hi;
              Types.temperatureMin := lo;
              Types.precipitationSum := p;
              Types.windspeedMax := w;
              Types.daily_weathercode := c |}
  | _, _, _, _, _ => None
  end.

Fixpoint allSome {A B : Type} (f : A -> option B) (l : list A) : option (list B) :=
  match l with
  | [] => Some []
  | x :: rest =>
      match f x, allSome f rest with
      | Some y, Some ys => Some (y :: ys)
      | _, _ => None
      end
  end.

Definition typed (f : WeatherForecast) : option Types.WeatherForecast :=
  match typedHour (current f), allSome typedHour (hourly f),
        allSome typedDay (daily f), timezone f with
  | Some c, Some hs, Some ds, Some tz =>
      Some {| Types.city := city f;
              Types.current := c;
              Types.hourly := hs;
              Types.daily := ds;
              Types.timezone := tz |}
  | _, _, _, _ => None
  end.
End Runtime.

Module WeatherService.
Import JS.

(** The ways an evaluation can end abruptly.  [TypeError] is what the
    language raises when a property of [undefined] is read.
    [DataShapeError] is the error kind the specification names; no
    statement of the source creates it. *)
Inductive exception : Type :=
| TypeError
| DataShapeError.

Inductive completion (A : Type) : Type :=
| Normal (a : A)
| Throw (e : exception).
Arguments Normal {A} a.
Arguments Throw {A} e.

Definition bind {A B : Type} (c : completion A) (k : A -> completion B)
  : completion B :=
  match c with
  | Normal a => k a
  | Throw e => Throw e
  end.

Notation "x <- c ;; k" := (bind c (fun x => k))
  (at level 61, c at next level, right associativity).

(** [arr[i]]: a [TypeError] when [arr] is [undefined], else the element or
    [undefined]. *)
Definition index {A : Type} (arr : option (list A)) (i : nat)
  : completion (option A) :=
  match arr with
  | None => Throw TypeError
  | Some a => Normal (nth_error a i)
  end.

(** [arr?.[i]] *)
Definition optIndex {A : Type} (arr : option (list A)) (i : nat) : option A :=
  match arr with
  | None => None
  | Some a => nth_error a i
  end.

(** [arr.map((x, i) => ...)]: the callback runs once per element, in
    order, and the first exception ends the loop. *)
Fixpoint mapFrom {A B : Type} (f : A -> nat -> completion B) (i : nat)
  (a : list A) : completion (list B) :=
  match a with
  | [] => Normal []
  | x :: rest =>
      y <- f x i ;;
      ys <- mapFrom f (S i) rest ;;
      Normal (y :: ys)
  end.

Definition arrayMap {A B : Type} (arr : option (list A))
  (f : A -> nat -> completion B) : completion (list B) :=
  match arr with
  | None => Throw TypeError
  | Some a => mapFrom f 0 a
  end.

Definition hourlyRecord (h : Payload.Hourly) (time : string) (i : nat)
  : completion Runtime.HourlyWeather :=
  t <- index (Payload.hourly_temperature_2m h) i ;;
  w <- index (Payload.hourly_windspeed_10m h) i ;;
  p <- index (Payload.hourly_precipitation h) i ;;
  c <- index (Payload.hourly_weathercode h) i ;;
  Normal {| Runtime.time := Some time;
            Runtime.temperature2m := t;
            Runtime.windspeed10m := w;
            Runtime.precipitation := p;
            Runtime.weathercode := c;
            Runtime.snowDepth := optIndex (Payload.snow_depth h) i |}.

Definition dailyRecord (d : Payload.Daily) (date : string) (i : nat)
  : completion Runtime.DailyWeather :=
  hi <- index (Payload.temperature_2m_max d) i ;;
  lo <- index (Payload.temperature_2m_min d) i ;;
  p <- index (Payload.precipitation_sum d) i ;;
  w <- index (Payload.windspeed_10m_max d) i ;;
  c <- index (Payload.daily_weathercode d) i ;;
  Normal {| Runtime.date := date;
            Runtime.temperatureMax := hi;
            Runtime.temperatureMin := lo;
            Runtime.precipitationSum := p;
            Runtime.windspeedMax := w;
            Runtime.daily_weathercode := c |}.

(** [obj.p] for each of the properties read off [obj]: a [TypeError] when
    [obj] is [undefined], else whatever the properties hold. *)
Definition properties {A B : Type} (obj : option A) (read : A -> B)
  : completion B :=
  match obj with
  | None => Throw TypeError
  | Some o => Normal (read o)
  end.

(** The object literal [current] (source lines 25-31). *)
Definition currentRecord (c : Payload.Current) : Runtime.HourlyWeather :=
  {| Runtime.time := Payload.time c;
     Runtime.temperature2m := Payload.temperature_2m c;
     Runtime.windspeed10m := Payload.windspeed_10m c;
     Runtime.precipitation := Payload.precipitation c;
     Runtime.weathercode := Payload.weathercode c;
     Runtime.snowDepth := None |}.

Definition mapToForecast (city : Types.City)
  (raw : Payload.OpenMeteoForecastResponse)
  : completion Runtime.WeatherForecast :=
  current <- properties (Payload.current raw) currentRecord ;;
  hourly <- arrayMap (Payload.hourly_time (Payload.hourly raw))
              (hourlyRecord (Payload.hourly raw)) ;;
  daily <- arrayMap (Payload.daily_time (Payload.daily raw))
             (dailyRecord (Payload.daily raw)) ;;
  Normal {| Runtime.city := city;
            Runtime.current := current;
            Runtime.hourly := hourly;
            Runtime.daily := daily;
            Runtime.timezone := Payload.timezone raw |}.

End WeatherService.

(* ------------------------------------------------------------------------- *)
(** ** The services that talk to the provider *)
(* ------------------------------------------------------------------------- *)

(** A string whose contents the code looks into is a sequence of UTF-16 code
    units; [s.length] is the length of the sequence. *)
Module JSString.

Definition codeUnit : Type := N.
Definition t : Type := list codeUnit.

(** The code points [trim] strips: the WhiteSpace and LineTerminator
    productions of the language, each of a single code unit. *)
Definition whiteSpace : list codeUnit :=
  [ 9; 10; 11; 12; 13; 32; 160; 5760;
    8192; 8193; 8194; 8195; 8196; 8197; 8198; 8199; 8200; 8201; 8202;
    8232; 8233; 8239; 8287; 12288; 65279 ]%N.

Definition isWhiteSpace (c : codeUnit) : bool := existsb (N.eqb c) whiteSpace.

Fixpoint trimStart (s : t) : t :=
  match s with
  | [] => []
  | c :: rest => if isWhiteSpace c then trimStart rest else s
  end.

Definition trimEnd (s : t) : t := rev (trimStart (rev s)).

(** [s.trim()] *)
Definition trim (s : t) : t := trimEnd (trimStart s).

End JSString.

(** The provider client as the services see it: each method sends one
    request and settles with whatever the provider, the network and the
    client's error wrapping made of it.  The log of the requests sent so far
    is threaded through every call. *)
Module OpenMeteoClient.
Import JS.

Record OpenMeteoGeocodingResult : Type := {
  id : number;
  name : string;
  latitude : number;
  longitude : number;
  country : string;
  country_code : string;
  timezone : string;
  population : option number;
  admin1 : option string
}.

Record OpenMeteoGeocodingResponse : Type := {
  results : option (list OpenMeteoGeocodingResult);
  generationtime_ms : number
}.

Inductive request : Type :=
| SearchCities (query : JSString.t) (count : number)
| GetWeatherForecast (latitude longitude : number) (timezone : string).

(** A rejected promise carries an [Error] made by the client or an
    exception raised while the service ran. *)
Inductive rejection : Type :=
| Error (message : string)
| Raised (e : WeatherService.exception).

Inductive settled (A : Type) : Type :=
| Resolved (a : A)
| Rejected (r : rejection).
Arguments Resolved {A} a.
Arguments Rejected {A} r.

Definition async (A : Type) : Type := list request -> settled A * list request.

Definition ret {A : Type} (a : A) : async A := fun log => (Resolved a, log).

Definition reject {A : Type} (r : rejection) : async A :=
  fun log => (Rejected r, log).

(** [x = await c; k x] *)
Definition await {A B : Type} (c : async A) (k : A -> async B) : async B :=
  fun log =>
    match c log with
    | (Resolved a, log') => k a log'
    | (Rejected r, log') => (Rejected r, log')
    end.

(** The answers of the outside world, which may depend on everything sent
    before. *)
Record t : Type := {
  geocodingAnswer :
    list request -> JSString.t -> number -> settled OpenMeteoGeocodingResponse;
  forecastAnswer :
    list request -> number -> number -> string
    -> settled Payload.OpenMeteoForecastResponse
}.

Definition searchCities (client : t) (query : JSString.t) (count : number)
  : async OpenMeteoGeocodingResponse :=
  fun log => (geocodingAnswer client log query count,
              log ++ [SearchCities query count]).

Definition getWeatherForecast (client : t) (latitude longitude : number)
  (timezone : string) : async Payload.OpenMeteoForecastResponse :=
  fun log => (forecastAnswer client log latitude longitude timezone,
              log ++ [GetWeatherForecast latitude longitude timezone]).

End OpenMeteoClient.

Notation "x <~ c ;; k" := (OpenMeteoClient.await c (fun x => k))
  (at level 61, c at next level, right associativity).

(** [src/services/GeocodingService.ts] *)
Module GeocodingService.
Import JS OpenMeteoClient.

Definition mapToCity (raw : OpenMeteoGeocodingResult) : Types.City :=
  {| Types.id := id raw;
     Types.city_name := name raw;
     Types.country := country raw;
     Types.countryCode := country_code raw;
     Types.latitude := latitude raw;
     Types.longitude := longitude raw;
     Types.city_timezone := timezone raw;
     Types.population := population raw;
     Types.admin1 := admin1 raw |}.

(** [!response.results?.length] *)
Definition noResults (response : OpenMeteoGeocodingResponse) : bool :=
  match results response with
  | None => true
  | Some rs => Nat.eqb (List.length rs) 0
  end.

(** [searchCities(query, count = 10)]; an absent [count] is [None]. *)
Definition searchCities (client : OpenMeteoClient.t) (query : JSString.t)
  (count : option number) : async (list Types.City) :=
  let count := match count with Some c => c | None => lit 10 end in
  if Nat.eqb (List.length query) 0
     || Nat.ltb (List.length (JSString.trim query)) 2
  then ret []
  else
    response <~ OpenMeteoClient.searchCities client (JSString.trim query) count ;;
    if noResults response then ret []
    else
      match results response with
      | Some rs => ret (map mapToCity rs)
      | None => reject (Raised WeatherService.TypeError)
      end.

End GeocodingService.

(** [WeatherService.getForecast] *)
Module ForecastService.
Import JS OpenMeteoClient.

Definition getForecast (client : OpenMeteoClient.t) (city : Types.City)
  : async Runtime.WeatherForecast :=
  raw <~ getWeatherForecast client (Types.latitude city) (Types.longitude city)
           (Types.city_timezone city) ;;
  match WeatherService.mapToForecast city raw with
  | WeatherService.Normal forecast => ret forecast
  | WeatherService.Throw e => reject (Raised e)
  end.

End ForecastService.

(** The [citySuggestions] resolver ([src/graphql/resolvers]). *)
Module Resolvers.
Import JS OpenMeteoClient.

Definition citySuggestions (client : OpenMeteoClient.t) (query : JSString.t)
  (count : option number) : async (list Types.City) :=
  let limit := Math_min (match count with Some c => c | None => lit 10 end)
                 (lit 20) in
  GeocodingService.searchCities client query (Some limit).

End Resolvers.

(* ------------------------------------------------------------------------- *)
(** ** Vocabulary of the properties *)
(* ------------------------------------------------------------------------- *)

Module Props.
Import JS Types ActivityService.
Local Open Scope string_scope.

(** Structural equality of two numbers, as a boolean. *)
Definition same (x y : number) : bool :=
  match x, y with
  | S754_zero a, S754_zero b => Bool.eqb a b
  | S754_infinity a, S754_infinity b => Bool.eqb a b
  | S754_nan, S754_nan => true
  | S754_finite a m e, S754_finite b n f =>
      Bool.eqb a b && Pos.eqb m n && Z.eqb e f
  | _, _ => false
  end.

(** The integer part of a finite number (zero for the others). *)
Definition toZ (x : number) : Z :=
  match x with
  | S754_finite s m e =>
      let v := match e with
               | Z0 => Zpos m
               | Zpos _ => Z.shiftl (Zpos m) e
               | Zneg p => Z.shiftr (Zpos m) (Zpos p)
               end in
      if s then Z.opp v else v
  | _ => 0%Z
  end.

(** [a] carries the integer score [z]. *)
Definition scored (a : Activity) (z : Z) : Prop := score a = lit z.

(** The activity's score is the integer [toZ (score a)], which [p] accepts. *)
Definition scoreIs (p : Z -> bool) (a : Activity) : bool :=
  same (score a) (lit (toZ (score a))) && p (toZ (score a)).

(** A valid score: an integer of [0, 100], with the flag set from 60 on. *)
Definition validScore (a : Activity) : bool :=
  scoreIs (fun z => Z.leb 0 z && Z.leb z 100 && Bool.eqb (suitable a) (Z.leb 60 z)) a.

(** The integers a score can take, and the table of the comparisons the
    ranking makes on them. *)
Definition points : list Z := map Z.of_nat (seq 0 101).

Definition orderCell (a b : Z) : bool :=
  Bool.eqb ((lit b - lit a) > lit 0)%js (Z.ltb a b)
  && Bool.eqb (lit a >= lit b)%js (Z.leb b a).

Definition orderRow (a : Z) : bool :=
  Z.eqb (toZ (lit a)) a && forallb (orderCell a) points.

(** The order in which [rankActivities] evaluates the four scorers. *)
Definition evaluationOrder (t : ActivityType) : nat :=
  match t with
  | SKIING => 0
  | SURFING => 1
  | INDOOR_SIGHTSEEING => 2
  | OUTDOOR_SIGHTSEEING => 3
  end.

(** [a] may stand before [b] in a ranking: its score is not lower, and on
    equal scores it was evaluated first. *)
Definition ranksBefore (a b : Activity) : Prop :=
  (score a >= score b)%js = true /\
  (score a = score b -> evaluationOrder (type a) < evaluationOrder (type b)).

(** The four activities before they are sorted. *)
Definition evaluated (hours : list HourlyWeather) : list Activity :=
  [ scoreSkiing hours; scoreSurfing hours;
    scoreIndoorSightseeing hours; scoreOutdoorSightseeing hours ].

(** The evaluation does not end in a [DataShapeError]. *)
Definition noShapeError {A : Type} (c : WeatherService.completion A) : Prop :=
  c <> WeatherService.Throw WeatherService.DataShapeError.

(** One hour of weather, and a window repeating it. *)
Definition hour (t w p c : number) (snow : option number) : HourlyWeather :=
  {| time := "2026-01-01T00:00";
     temperature2m := t;
     windspeed10m := w;
     precipitation := p;
     weathercode := c;
     snowDepth := snow;
     waveHeight := None |}.

Definition someCity : City :=
  {| id := lit 1;
     city_name := "Innsbruck";
     country := "Austria";
     countryCode := "AT";
     latitude := lit 47;
     longitude := lit 11;
     city_timezone := "Europe/Vienna";
     population := None;
     admin1 := None |}.

Definition forecastOf (c : City) (now : HourlyWeather) (hours : list HourlyWeather)
  (days : list DailyWeather) (tz : string) : WeatherForecast :=
  {| city := c; current := now; hourly := hours; daily := days; timezone := tz |}.

(** The windows the scenarios are evaluated on: 24 equal hours. *)
Definition window (h : HourlyWeather) : list HourlyWeather := repeat h 24.

(** Ideal skiing weather over half a metre of snow, the depth written in
    metres as the schema documents the field ... *)
Definition skiHourMetres : HourlyWeather :=
  hour (lit (-8)) (lit 20) (dec 5 1) (lit 1) (Some (dec 5 1)).

(** ... and the same hour with the depth written in centimetres. *)
Definition skiHourCentimetres : HourlyWeather :=
  hour (lit (-8)) (lit 20) (dec 5 1) (lit 1) (Some (lit 50)).

(** A hot, calm, dry hour: 35 degrees. *)
Definition hotHour : HourlyWeather :=
  hour (lit 35) (lit 15) (lit 0) (lit 1) None.

(** Heavy rain at a moderate temperature. *)
Definition rainyHour : HourlyWeather :=
  hour (lit 12) (lit 15) (lit 10) (lit 65) (Some (lit 0)).

Definition mildHour : HourlyWeather :=
  hour (lit 20) (lit 15) (lit 0) (lit 1) (Some (lit 0)).

Definition someDay : DailyWeather :=
  {| date := "2026-01-01";
     temperatureMax := lit 22;
     temperatureMin := lit 15;
     precipitationSum := lit 0;
     windspeedMax := lit 20;
     daily_weathercode := lit 1 |}.

Definition otherCity : City :=
  {| id := lit 2;
     city_name := "Cape Town";
     country := "South Africa";
     countryCode := "ZA";
     latitude := lit (-34);
     longitude := lit 18;
     city_timezone := "Africa/Johannesburg";
     population := Some (lit 3433441);
     admin1 := Some "Western Cape" |}.

(** Two forecasts that share their first 24 hours and nothing else. *)
Definition forecastA : WeatherForecast :=
  forecastOf someCity mildHour (window mildHour ++ [rainyHour]) [] "Europe/Vienna".

Definition forecastB : WeatherForecast :=
  forecastOf otherCity hotHour (window mildHour ++ [hotHour; hotHour]) [someDay]
    "Africa/Johannesburg".

Definition emptyForecast : WeatherForecast :=
  forecastOf someCity mildHour [] [] "Europe/Vienna".

(** *** Payload shapes *)

Definition present {A : Type} (a : option A) : bool :=
  match a with
  | Some _ => true
  | None => false
  end.

Definition requiredHourlyPresent (h : Payload.Hourly) : bool :=
  present (Payload.hourly_temperature_2m h)
  && present (Payload.hourly_windspeed_10m h)
  && present (Payload.hourly_precipitation h)
  && present (Payload.hourly_weathercode h).

Definition requiredDailyPresent (d : Payload.Daily) : bool :=
  present (Payload.temperature_2m_max d)
  && present (Payload.temperature_2m_min d)
  && present (Payload.precipitation_sum d)
  && present (Payload.windspeed_10m_max d)
  && present (Payload.daily_weathercode d).

(** The current object and every required array are there, of whatever
    length. *)
Definition requiredPresent (raw : Payload.OpenMeteoForecastResponse) : bool :=
  present (Payload.current raw)
  && present (Payload.hourly_time (Payload.hourly raw))
  && requiredHourlyPresent (Payload.hourly raw)
  && present (Payload.daily_time (Payload.daily raw))
  && requiredDailyPresent (Payload.daily raw).

Definition aligned {A B : Type} (times : option (list A)) (field : option (list B))
  : bool :=
  match times, field with
  | Some t, Some f => Nat.eqb (List.length f) (List.length t)
  | _, _ => false
  end.

(** The aligned-array invariant of the hourly part of a payload: every
    required array is there and as long as the time array, and so is the
    snow depth array when the provider sent one. *)
Definition hourlyWellFormed (h : Payload.Hourly) : bool :=
  aligned (Payload.hourly_time h) (Payload.hourly_temperature_2m h)
  && aligned (Payload.hourly_time h) (Payload.hourly_windspeed_10m h)
  && aligned (Payload.hourly_time h) (Payload.hourly_precipitation h)
  && aligned (Payload.hourly_time h) (Payload.hourly_weathercode h)
  && match Payload.snow_depth h with
     | Some s => aligned (Payload.hourly_time h) (Some s)
     | None => true
     end.

(** What record [i] of the hourly sequence holds when the callback of
    [mapToForecast] completes: element [i] of each array, [undefined] where
    there is none. *)
Definition hourlyAt (h : Payload.Hourly) (i : nat) (time : string)
  : Runtime.HourlyWeather :=
  {| Runtime.time := Some time;
     Runtime.temperature2m := WeatherService.optIndex (Payload.hourly_temperature_2m h) i;
     Runtime.windspeed10m := WeatherService.optIndex (Payload.hourly_windspeed_10m h) i;
     Runtime.precipitation := WeatherService.optIndex (Payload.hourly_precipitation h) i;
     Runtime.weathercode := WeatherService.optIndex (Payload.hourly_weathercode h) i;
     Runtime.snowDepth := WeatherService.optIndex (Payload.snow_depth h) i |}.

Definition someCurrent : Payload.Current :=
  {| Payload.time := Some "2026-01-01T00:00";
     Payload.temperature_2m := Some (lit (-8));
     Payload.windspeed_10m := Some (lit 20);
     Payload.precipitation := Some (dec 5 1);
     Payload.weathercode := Some (lit 1) |}.

Definition someDaily : Payload.Daily :=
  {| Payload.daily_time := Some ["2026-01-01"];
     Payload.temperature_2m_max := Some [lit (-5)];
     Payload.temperature_2m_min := Some [lit (-11)];
     Payload.precipitation_sum := Some [lit 12];
     Payload.windspeed_10m_max := Some [lit 25];
     Payload.daily_weathercode := Some [lit 71] |}.

Definition payloadOf (h : Payload.Hourly) : Payload.OpenMeteoForecastResponse :=
  {| Payload.latitude := lit 47;
     Payload.longitude := lit 11;
     Payload.timezone := Some "Europe/Vienna";
     Payload.current := Some someCurrent;
     Payload.hourly := h;
     Payload.daily := someDaily |}.

(** Two hours announced, one temperature delivered. *)
Definition shortPayload : Payload.OpenMeteoForecastResponse :=
  payloadOf
    {| Payload.hourly_time := Some ["2026-01-01T00:00"; "2026-01-01T01:00"];
       Payload.hourly_temperature_2m := Some [lit 20];
       Payload.hourly_windspeed_10m := Some [lit 15; lit 16];
       Payload.hourly_precipitation := Some [lit 0; lit 0];
       Payload.hourly_weathercode := Some [lit 1; lit 1];
       Payload.snow_depth := None;
       Payload.wave_height := None |}.

(** The temperature array is missing altogether. *)
Definition missingPayload : Payload.OpenMeteoForecastResponse :=
  payloadOf
    {| Payload.hourly_time := Some ["2026-01-01T00:00"; "2026-01-01T01:00"];
       Payload.hourly_temperature_2m := None;
       Payload.hourly_windspeed_10m := Some [lit 15; lit 16];
       Payload.hourly_precipitation := Some [lit 0; lit 0];
       Payload.hourly_weathercode := Some [lit 1; lit 1];
       Payload.snow_depth := None;
       Payload.wave_height := None |}.

(** Every array as announced, the current object left out. *)
Definition noCurrentPayload : Payload.OpenMeteoForecastResponse :=
  {| Payload.latitude := lit 47;
     Payload.longitude := lit 11;
     Payload.timezone := Some "Europe/Vienna";
     Payload.current := None;
     Payload.hourly :=
       {| Payload.hourly_time := Some ["2026-01-01T00:00"; "2026-01-01T01:00"];
          Payload.hourly_temperature_2m := Some [lit 20; lit 21];
          Payload.hourly_windspeed_10m := Some [lit 15; lit 16];
          Payload.hourly_precipitation := Some [lit 0; lit 0];
          Payload.hourly_weathercode := Some [lit 1; lit 1];
          Payload.snow_depth := None;
          Payload.wave_height := None |};
     Payload.daily := someDaily |}.

(** A current object that carries the time alone. *)
Definition bareCurrentPayload : Payload.OpenMeteoForecastResponse :=
  {| Payload.latitude := lit 47;
     Payload.longitude := lit 11;
     Payload.timezone := None;
     Payload.current :=
       Some {| Payload.time := Some "2026-01-01T00:00";
               Payload.temperature_2m := None;
               Payload.windspeed_10m := None;
               Payload.precipitation := None;
               Payload.weathercode := None |};
     Payload.hourly := Payload.hourly noCurrentPayload;
     Payload.daily := someDaily |}.

(** A day of ideal skiing weather as the provider reports it, the snow
    depth in metres. *)
Definition skiPayload : Payload.OpenMeteoForecastResponse :=
  payloadOf
    {| Payload.hourly_time := Some (repeat "2026-01-01T00:00" 24);
       Payload.hourly_temperature_2m := Some (repeat (lit (-8)) 24);
       Payload.hourly_windspeed_10m := Some (repeat (lit 20) 24);
       Payload.hourly_precipitation := Some (repeat (dec 5 1) 24);
       Payload.hourly_weathercode := Some (repeat (lit 1) 24);
       Payload.snow_depth := Some (repeat (dec 5 1) 24);
       Payload.wave_height := None |}.

End Props.

(* ------------------------------------------------------------------------- *)
(** ** Further vocabulary *)
(* ------------------------------------------------------------------------- *)

Module Vocabulary.
Import JS Types ActivityService Props.
Local Open Scope string_scope.

(** *** Scores and reasons *)

(** A score of at most [hi], and not suitable. *)
Definition scoreAtMost (hi : Z) (a : Activity) : bool :=
  scoreIs (fun z => Z.leb 0 z && Z.leb z hi) a && negb (suitable a).

(** A text that opens with words: its first piece is literal text whose
    first character is a lower-case letter. *)
Definition worded (t : text) : Prop :=
  exists c s rest,
    t = Text (String c s) :: rest /\ 97 <= Ascii.nat_of_ascii c <= 122.

(** Every reason gathered so far opens with words. *)
Definition wordedState (st : state) : Prop := Forall worded (snd st).

(** At least one reason has been given, and every reason opens with words. *)
Definition spoken (st : state) : Prop := snd st <> [] /\ Forall worded (snd st).

(** [h.snowDepth ?? 0] *)
Definition snowOrZero (h : HourlyWeather) : number :=
  match snowDepth h with
  | Some d => d
  | None => lit 0
  end.

(** Two hourly records that the scorers cannot tell apart. *)
Definition sameWeather (h1 h2 : HourlyWeather) : Prop :=
  temperature2m h1 = temperature2m h2 /\
  windspeed10m h1 = windspeed10m h2 /\
  precipitation h1 = precipitation h2 /\
  weathercode h1 = weathercode h2 /\
  snowOrZero h1 = snowOrZero h2.

(** *** Sample windows *)

(** The mild hour again, reported at another time, without a snow depth and
    with a wave height. *)
Definition mildHourElsewhere : HourlyWeather :=
  {| time := "2026-06-01T12:00";
     temperature2m := lit 20;
     windspeed10m := lit 15;
     precipitation := lit 0;
     weathercode := lit 1;
     snowDepth := None;
     waveHeight := Some (lit 2) |}.

Definition forecastC : WeatherForecast :=
  forecastOf otherCity hotHour (window mildHourElsewhere) [someDay]
    "Africa/Johannesburg".

Definition calmSkiHour : HourlyWeather :=
  hour (lit (-5)) (lit 15) (lit 0) (lit 1) (Some (lit 40)).

Definition windySkiHour : HourlyWeather :=
  hour (lit (-5)) (lit 80) (lit 0) (lit 1) (Some (lit 40)).

Definition perfectHour : HourlyWeather :=
  hour (lit 22) (lit 10) (lit 0) (lit 1) (Some (lit 0)).

Definition stormHour : HourlyWeather :=
  hour (lit 20) (lit 65) (lit 8) (lit 65) (Some (lit 0)).

(** *** The normaliser in closed form *)

Definition dailyAt (d : Payload.Daily) (i : nat) (date : string)
  : Runtime.DailyWeather :=
  {| Runtime.date := date;
     Runtime.temperatureMax :=
       WeatherService.optIndex (Payload.temperature_2m_max d) i;
     Runtime.temperatureMin :=
       WeatherService.optIndex (Payload.temperature_2m_min d) i;
     Runtime.precipitationSum :=
       WeatherService.optIndex (Payload.precipitation_sum d) i;
     Runtime.windspeedMax :=
       WeatherService.optIndex (Payload.windspeed_10m_max d) i;
     Runtime.daily_weathercode :=
       WeatherService.optIndex (Payload.daily_weathercode d) i |}.

(** [f i x0; f (i + 1) x1; ...] *)
Fixpoint indexed {A B : Type} (f : nat -> A -> B) (i : nat) (l : list A)
  : list B :=
  match l with
  | [] => []
  | x :: rest => f i x :: indexed f (S i) rest
  end.

(** A [map] over a time array completes when the array is there and either
    is empty or finds every array its callback reads. *)
Definition partCompletes {A : Type} (times : option (list A)) (required : bool)
  : bool :=
  match times with
  | None => false
  | Some [] => true
  | Some (_ :: _) => required
  end.

Definition completes (raw : Payload.OpenMeteoForecastResponse) : bool :=
  present (Payload.current raw)
  && partCompletes (Payload.hourly_time (Payload.hourly raw))
       (requiredHourlyPresent (Payload.hourly raw))
  && partCompletes (Payload.daily_time (Payload.daily raw))
       (requiredDailyPresent (Payload.daily raw)).

Definition timesOf {A : Type} (times : option (list A)) : list A :=
  match times with
  | Some l => l
  | None => []
  end.

(** The field [read] of the current object, [undefined] when the field or
    the object is missing. *)
Definition currentField {A : Type} (raw : Payload.OpenMeteoForecastResponse)
  (read : Payload.Current -> option A) : option A :=
  match Payload.current raw with
  | Some c => read c
  | None => None
  end.

Definition currentOf (raw : Payload.OpenMeteoForecastResponse)
  : Runtime.HourlyWeather :=
  {| Runtime.time := currentField raw Payload.time;
     Runtime.temperature2m := currentField raw Payload.temperature_2m;
     Runtime.windspeed10m := currentField raw Payload.windspeed_10m;
     Runtime.precipitation := currentField raw Payload.precipitation;
     Runtime.weathercode := currentField raw Payload.weathercode;
     Runtime.snowDepth := None |}.

(** The forecast [mapToForecast] builds when it completes. *)
Definition built (city : City) (raw : Payload.OpenMeteoForecastResponse)
  : Runtime.WeatherForecast :=
  {| Runtime.city := city;
     Runtime.current := currentOf raw;
     Runtime.hourly :=
       indexed (hourlyAt (Payload.hourly raw)) 0
         (timesOf (Payload.hourly_time (Payload.hourly raw)));
     Runtime.daily :=
       indexed (dailyAt (Payload.daily raw)) 0
         (timesOf (Payload.daily_time (Payload.daily raw)));
     Runtime.timezone := Payload.timezone raw |}.




(** [arr] without what lies past its first [n] elements. *)
Definition cut {A : Type} (n : nat) (arr : option (list A)) : option (list A) :=
  option_map (firstn n) arr.

(** The payload without the elements that lie past the end of its time
    arrays. *)
Definition cutToTimes (raw : Payload.OpenMeteoForecastResponse)
  : Payload.OpenMeteoForecastResponse :=
  let h := Payload.hourly raw in
  let d := Payload.daily raw in
  let n := List.length (timesOf (Payload.hourly_time h)) in
  let m := List.length (timesOf (Payload.daily_time d)) in
  {| Payload.latitude := Payload.latitude raw;
     Payload.longitude := Payload.longitude raw;
     Payload.timezone := Payload.timezone raw;
     Payload.current := Payload.current raw;
     Payload.hourly :=
       {| Payload.hourly_time := Payload.hourly_time h;
          Payload.hourly_temperature_2m := cut n (Payload.hourly_temperature_2m h);
          Payload.hourly_windspeed_10m := cut n (Payload.hourly_windspeed_10m h);
          Payload.hourly_precipitation := cut n (Payload.hourly_precipitation h);
          Payload.hourly_weathercode := cut n (Payload.hourly_weathercode h);
          Payload.snow_depth := cut n (Payload.snow_depth h);
          Payload.wave_height := Payload.wave_height h |};
     Payload.daily :=
       {| Payload.daily_time := Payload.daily_time d;
          Payload.temperature_2m_max := cut m (Payload.temperature_2m_max d);
          Payload.temperature_2m_min := cut m (Payload.temperature_2m_min d);
          Payload.precipitation_sum := cut m (Payload.precipitation_sum d);
          Payload.windspeed_10m_max := cut m (Payload.windspeed_10m_max d);
          Payload.daily_weathercode := cut m (Payload.daily_weathercode d) |} |}.

(** *** The services *)

(** Nothing but white space. *)
Definition blank (s : JSString.t) : bool := forallb JSString.isWhiteSpace s.

(** The default of [searchCities(query, count = 10)]. *)
Definition countOr10 (count : option number) : number :=
  match count with
  | Some c => c
  | None => lit 10
  end.

(** [response.results], or nothing when the provider sent none. *)
Definition resultsOf (response : OpenMeteoClient.OpenMeteoGeocodingResponse)
  : list OpenMeteoClient.OpenMeteoGeocodingResult :=
  match OpenMeteoClient.results response with
  | Some rs => rs
  | None => []
  end.

(** The queries ["A"], ["London"] and ["  London \t"]. *)
Definition queryA : JSString.t := [65]%N.

Definition queryLondon : JSString.t := [76; 111; 110; 100; 111; 110]%N.

Definition queryLondonPadded : JSString.t :=
  ([32; 32]%N ++ queryLondon ++ [32; 9]%N)%list.

Definition capeTown : OpenMeteoClient.OpenMeteoGeocodingResult :=
  {| OpenMeteoClient.id := lit 2193733;
     OpenMeteoClient.name := "Cape Town";
     OpenMeteoClient.latitude := lit (-34);
     OpenMeteoClient.longitude := lit 18;
     OpenMeteoClient.country := "South Africa";
     OpenMeteoClient.country_code := "ZA";
     OpenMeteoClient.timezone := "Africa/Johannesburg";
     OpenMeteoClient.population := Some (lit 3433441);
     OpenMeteoClient.admin1 := Some "Western Cape" |}.

(** A provider that knows one city and one forecast. *)
Definition someClient : OpenMeteoClient.t :=
  {| OpenMeteoClient.geocodingAnswer :=
       fun _ _ _ =>
         OpenMeteoClient.Resolved
           {| OpenMeteoClient.results := Some [capeTown];
              OpenMeteoClient.generationtime_ms := lit 1 |};
     OpenMeteoClient.forecastAnswer :=
       fun _ _ _ _ => OpenMeteoClient.Resolved skiPayload |}.

End Vocabulary.

(* ------------------------------------------------------------------------- *)
(** ** Facts about numbers *)
(* ------------------------------------------------------------------------- *)

Module NumberFacts.
Import JS Props.

Lemma same_eq (x y : number) : same x y = true -> x = y.
Proof.
  destruct x as [a|a| |a m e], y as [b|b| |b n f]; simpl;
    try discriminate; intros H.
  - apply eqb_prop in H. now subst.
  - apply eqb_prop in H. now subst.
  - reflexivity.
  - apply andb_prop in H. destruct H as [H He].
    apply andb_prop in H. destruct H as [Hs Hm].
    apply eqb_prop in Hs. apply Pos.eqb_eq in Hm. apply Z.eqb_eq in He.
    now subst.
Qed.

Lemma in_points (z : Z) : (0 <= z <= 100)%Z -> In z points.
Proof.
  intros H. unfold points. rewrite <- (Z2Nat.id z) by lia.
  apply in_map, in_seq. lia.
Qed.

Lemma orderTable_true : forallb orderRow points = true.
Proof. vm_compute. reflexivity. Qed.

Lemma orderRow_true (a : Z) : (0 <= a <= 100)%Z -> orderRow a = true.
Proof.
  intros Ha.
  exact (proj1 (forallb_forall orderRow points) orderTable_true a (in_points Ha)).
Qed.

(** On score values, the comparator of the ranking and the relational
    operators agree with the order of the integers. *)
Lemma points_order (a b : Z) :
  (0 <= a <= 100)%Z -> (0 <= b <= 100)%Z ->
  ((lit b - lit a) > lit 0)%js = Z.ltb a b /\ (lit a >= lit b)%js = Z.leb b a.
Proof.
  intros Ha Hb. pose proof (orderRow_true Ha) as T. unfold orderRow in T.
  apply andb_prop in T. destruct T as [_ T].
  pose proof (proj1 (forallb_forall (orderCell a) points) T b (in_points Hb)) as C.
  unfold orderCell in C. apply andb_prop in C. destruct C as [C1 C2].
  split; apply eqb_prop; assumption.
Qed.

Lemma toZ_lit (a : Z) : (0 <= a <= 100)%Z -> toZ (lit a) = a.
Proof.
  intros Ha. pose proof (orderRow_true Ha) as T. unfold orderRow in T.
  apply andb_prop in T. destruct T as [T _]. apply Z.eqb_eq. exact T.
Qed.

(** Two thresholds with different binary exponents cannot be met from the
    wrong sides at once, whatever the number (NaN and infinities included). *)
Section Thresholds.
Variable x : number.
Variables ma mb : positive.
Variables ea eb : Z.
Hypothesis apart : (ea < eb)%Z.

Lemma lt_ge_excl :
  (x < S754_finite false ma ea)%js = true ->
  (x >= S754_finite false mb eb)%js = true -> False.
Proof.
  unfold lt, ge, SFltb, SFleb. intros H1 H2.
  destruct x as [s|s| |s m e]; simpl in *; try discriminate.
  - destruct s; discriminate.
  - destruct s; try discriminate.
    destruct (Z.compare_spec e ea), (Z.compare_spec eb e);
      try discriminate; lia.
Qed.

Lemma le_gt_excl :
  (x <= S754_finite false ma ea)%js = true ->
  (x > S754_finite false mb eb)%js = true -> False.
Proof.
  unfold le, gt, SFltb, SFleb. intros H1 H2.
  destruct x as [s|s| |s m e]; simpl in *; try discriminate.
  - destruct s; discriminate.
  - destruct s; try discriminate.
    destruct (Z.compare_spec e ea), (Z.compare_spec eb e);
      try discriminate; lia.
Qed.

Lemma lt_gt_excl :
  (x < S754_finite false ma ea)%js = true ->
  (x > S754_finite false mb eb)%js = true -> False.
Proof.
  unfold lt, gt, SFltb, SFleb. intros H1 H2.
  destruct x as [s|s| |s m e]; simpl in *; try discriminate.
  - destruct s; discriminate.
  - destruct s; try discriminate.
    destruct (Z.compare_spec e ea), (Z.compare_spec eb e);
      try discriminate; lia.
Qed.
End Thresholds.

Lemma neg_ge_excl (x : number) (mb : positive) (eb : Z) :
  (x < S754_zero false)%js = true ->
  (x >= S754_finite false mb eb)%js = true -> False.
Proof.
  unfold lt, ge, SFltb, SFleb. intros H1 H2.
  destruct x as [s|s| |s m e]; simpl in *; try discriminate.
  - destruct s; discriminate.
  - destruct s; discriminate.
Qed.

End NumberFacts.

(* ------------------------------------------------------------------------- *)
(** ** Facts about the stable sort *)
(* ------------------------------------------------------------------------- *)

Module SortFacts.
Import JS.

Section StableSort.
Variable A : Type.
Variable comparefn : A -> A -> number.
Variable key : A -> Z.
Variable pos : A -> nat.
Variable ok : A -> Prop.
Hypothesis comparefn_key :
  forall x y, ok x -> ok y -> (comparefn x y > lit 0)%js = Z.ltb (key x) (key y).

(** Descending in the key; equal keys in the order of [pos]. *)
Definition before (a b : A) : Prop :=
  (key b <= key a)%Z /\ (key a = key b -> pos a < pos b).

Lemma insert_perm (x : A) (l : list A) :
  Permutation (insert comparefn x l) (x :: l).
Proof.
  induction l as [|y l IH]; cbn [insert].
  - apply Permutation_refl.
  - destruct (comparefn x y > lit 0)%js.
    + eapply perm_trans; [apply perm_skip, IH | apply perm_swap].
    + apply Permutation_refl.
Qed.

Lemma sort_perm (l : list A) : Permutation (sort comparefn l) l.
Proof.
  induction l as [|x l IH]; cbn [sort].
  - apply perm_nil.
  - eapply perm_trans; [apply insert_perm | apply perm_skip, IH].
Qed.

Lemma insert_sorted (x : A) (l : list A) :
  ok x -> Forall ok l ->
  Forall (fun y => pos x < pos y) l ->
  StronglySorted before l ->
  StronglySorted before (insert comparefn x l).
Proof.
  intros Hx. induction l as [|y l IH]; intros Hok Hpos Hs; cbn [insert].
  - constructor; constructor.
  - inversion Hok as [|? ? Hy Hl]; subst.
    inversion Hpos as [|? ? Hxy Hxl]; subst.
    inversion Hs as [|? ? Hs' Hyl]; subst.
    rewrite (comparefn_key Hx Hy).
    destruct (Z.ltb_spec (key x) (key y)) as [Hlt|Hge].
    + constructor.
      * apply IH; assumption.
      * eapply Permutation_Forall.
        -- apply Permutation_sym, insert_perm.
        -- constructor; [split; lia | assumption].
    + constructor; [assumption|].
      constructor.
      * split; [lia | intros _; assumption].
      * rewrite Forall_forall in *. intros z Hz.
        destruct (Hyl z Hz) as [Hk _]. split; [lia | intros _; auto].
Qed.

Lemma sort_sorted (l : list A) :
  Forall ok l ->
  StronglySorted (fun a b => pos a < pos b) l ->
  StronglySorted before (sort comparefn l).
Proof.
  induction l as [|x l IH]; intros Hok Hs; cbn [sort].
  - constructor.
  - inversion Hok; subst. inversion Hs; subst.
    apply insert_sorted; auto.
    + eapply Permutation_Forall; [apply Permutation_sym, sort_perm | assumption].
    + eapply Permutation_Forall; [apply Permutation_sym, sort_perm | assumption].
Qed.
End StableSort.

Lemma StronglySorted_weaken (A : Type) (R S : A -> A -> Prop) (l : list A) :
  (forall a b, In a l -> In b l -> R a b -> S a b) ->
  StronglySorted R l -> StronglySorted S l.
Proof.
  induction l as [|x l IH]; intros H Hs.
  - constructor.
  - inversion Hs as [|? ? Hs' Hx]; subst. constructor.
    + apply IH; [|assumption]. intros a b Ha Hb. apply H; now right.
    + rewrite Forall_forall in *. intros y Hy.
      apply H; [now left | now right | auto].
Qed.

End SortFacts.

(* ------------------------------------------------------------------------- *)
(** ** Properties of the scoring engine *)
(* ------------------------------------------------------------------------- *)

Module ScoringFacts.
Import JS Types ActivityService Props NumberFacts SortFacts.

(** Case analysis on every test a scorer makes. *)
Ltac split_ifs :=
  repeat match goal with
         | |- context [if ?c then _ else _] => destruct c
         end.

(** The window enters a scorer only through its aggregates. *)
Ltac name_aggregates :=
  repeat match goal with
         | |- context [average ?l] =>
             let a := fresh "avg" in generalize (average l); intro a
         | |- context [clearRatio ?h] =>
             let r := fresh "ratio" in generalize (clearRatio h); intro r
         | |- context [surfingClearRatio ?h] =>
             let r := fresh "ratio" in generalize (surfingClearRatio h); intro r
         end.

(** The wording of the reasons plays no part in a score. *)
Ltac hide_texts :=
  repeat match goal with
         | |- context [Text ?s] =>
             let t := fresh "txt" in generalize (Text s); intro t
         end.

Lemma scoreIs_sound (p : Z -> bool) (a : Activity) :
  scoreIs p a = true -> exists z, score a = lit z /\ p z = true.
Proof.
  unfold scoreIs. intros H. apply andb_prop in H. destruct H as [Hs Hp].
  exists (toZ (score a)). split; [now apply same_eq | assumption].
Qed.

Lemma validScore_sound (a : Activity) :
  validScore a = true ->
  exists z, score a = lit z /\ (0 <= z <= 100)%Z /\
            (suitable a = true <-> (60 <= z)%Z).
Proof.
  intros H. apply scoreIs_sound in H. destruct H as (z & Hz & H).
  apply andb_prop in H. destruct H as [H Hs].
  apply andb_prop in H. destruct H as [Hlo Hhi].
  apply Z.leb_le in Hlo. apply Z.leb_le in Hhi. apply eqb_prop in Hs.
  exists z. repeat split; try assumption.
  - intros E. apply Z.leb_le. congruence.
  - intros E. apply Z.leb_le in E. congruence.
Qed.

Lemma scoreSkiing_valid (hours : list HourlyWeather) :
  validScore (scoreSkiing hours) = true.
Proof.
  unfold scoreSkiing. name_aggregates.
  unfold validScore, scoreIs, skiingTemperature, skiingSnow, skiingWind,
    skiingPowder.
  cbn [score suitable fst snd]. hide_texts.
  split_ifs; vm_compute; reflexivity.
Qed.

Lemma scoreSurfing_valid (hours : list HourlyWeather) :
  validScore (scoreSurfing hours) = true.
Proof.
  unfold scoreSurfing, surfingClearSky. name_aggregates.
  unfold validScore, scoreIs, surfingTemperature, surfingWind,
    surfingPrecipitation.
  cbn [score suitable fst snd]. hide_texts.
  split_ifs; vm_compute; reflexivity.
Qed.

Lemma scoreIndoorSightseeing_valid (hours : list HourlyWeather) :
  validScore (scoreIndoorSightseeing hours) = true.
Proof.
  unfold scoreIndoorSightseeing. name_aggregates.
  unfold validScore, scoreIs, indoorPrecipitation, indoorTemperature,
    indoorWind, indoorGreatOutdoor, indoorFallback.
  cbn [score suitable fst snd]. hide_texts.
  split_ifs; vm_compute; reflexivity.
Qed.

Lemma scoreOutdoorSightseeing_valid (hours : list HourlyWeather) :
  validScore (scoreOutdoorSightseeing hours) = true.
Proof.
  unfold scoreOutdoorSightseeing. name_aggregates.
  unfold validScore, scoreIs, outdoorTemperature, outdoorSky,
    outdoorPrecipitation, outdoorWind.
  cbn [score suitable fst snd]. hide_texts.
  split_ifs; vm_compute; reflexivity.
Qed.

Lemma rankActivities_eq (forecast : WeatherForecast) :
  rankActivities forecast =
  sort (fun a b => (score b - score a)%js) (evaluated (firstn 24 (hourly forecast))).
Proof. reflexivity. Qed.

Lemma evaluated_valid (hours : list HourlyWeather) :
  Forall (fun a => validScore a = true) (evaluated hours).
Proof.
  repeat constructor.
  - apply scoreSkiing_valid.
  - apply scoreSurfing_valid.
  - apply scoreIndoorSightseeing_valid.
  - apply scoreOutdoorSightseeing_valid.
Qed.

Lemma rankActivities_perm (forecast : WeatherForecast) :
  Permutation (rankActivities forecast)
    (evaluated (firstn 24 (hourly forecast))).
Proof. rewrite rankActivities_eq. apply sort_perm. Qed.

End ScoringFacts.

(* ------------------------------------------------------------------------- *)
(** ** The ranking *)
(* ------------------------------------------------------------------------- *)

Import JS Types ActivityService Props NumberFacts SortFacts ScoringFacts.

(** C2.  [rankActivities] is a total function of the forecast (no rule of the
    engine can raise), and for every forecast, the one with an empty hourly
    sequence included, it returns exactly four entries whose identifiers are
    the four fixed activities, each once. *)
Theorem rankActivities_four_activities (forecast : WeatherForecast) :
  List.length (rankActivities forecast) = 4 /\
  Permutation (map type (rankActivities forecast))
    [SKIING; SURFING; INDOOR_SIGHTSEEING; OUTDOOR_SIGHTSEEING] /\
  NoDup (map type (rankActivities forecast)).
Proof.
  assert (P : Permutation (map type (rankActivities forecast))
                [SKIING; SURFING; INDOOR_SIGHTSEEING; OUTDOOR_SIGHTSEEING]).
  { change [SKIING; SURFING; INDOOR_SIGHTSEEING; OUTDOOR_SIGHTSEEING]
      with (map type (evaluated (firstn 24 (hourly forecast)))).
    apply Permutation_map, rankActivities_perm. }
  repeat split.
  - rewrite <- (length_map type). now rewrite (Permutation_length P).
  - exact P.
  - apply (Permutation_NoDup (Permutation_sym P)).
    repeat constructor; simpl; intuition discriminate.
Qed.

(** C3.  Every entry returned by [rankActivities] carries an integer score
    between 0 and 100, and its [suitable] flag is set exactly when that
    score is at least 60. *)
Theorem rankActivities_scores_valid (forecast : WeatherForecast) :
  Forall (fun a => exists z : Z,
            score a = lit z /\ (0 <= z <= 100)%Z /\
            (suitable a = true <-> (60 <= z)%Z))
    (rankActivities forecast).
Proof.
  eapply Permutation_Forall.
  - apply Permutation_sym, rankActivities_perm.
  - eapply Forall_impl; [|apply evaluated_valid].
    intros a. apply validScore_sound.
Qed.

Lemma evaluated_in_order (hours : list HourlyWeather) :
  StronglySorted
    (fun a b => evaluationOrder (type a) < evaluationOrder (type b))
    (evaluated hours).
Proof.
  unfold evaluated.
  repeat (constructor; [|repeat constructor; simpl; lia]).
  constructor.
Qed.

(** C4.  The ranking is a rearrangement of the four entries the scorers
    produce for the first 24 hours; they come out by descending score
    (non-strictly), and entries of equal score keep the order in which the
    scorers are evaluated: skiing, surfing, indoor, outdoor. *)
Theorem rankActivities_sorted_stable (forecast : WeatherForecast) :
  Permutation (rankActivities forecast)
    (evaluated (firstn 24 (hourly forecast))) /\
  StronglySorted ranksBefore (rankActivities forecast).
Proof.
  split; [apply rankActivities_perm|].
  set (ok := fun a : Activity => exists z : Z, score a = lit z /\ (0 <= z <= 100)%Z).
  assert (Hok : Forall ok (evaluated (firstn 24 (hourly forecast)))).
  { eapply Forall_impl; [|apply evaluated_valid].
    intros a H. destruct (validScore_sound a H) as (z & Hz & Hr & _).
    exists z. now split. }
  assert (Hcmp : forall x y : Activity, ok x -> ok y ->
            ((score y - score x) > lit 0)%js
            = Z.ltb (toZ (score x)) (toZ (score y))).
  { intros x y (zx & Ex & Rx) (zy & Ey & Ry). rewrite Ex, Ey.
    rewrite !toZ_lit by assumption. apply points_order; assumption. }
  rewrite rankActivities_eq.
  apply StronglySorted_weaken
    with (R := before (fun a => toZ (score a))
                 (fun a => evaluationOrder (type a))).
  - intros a b Ha Hb [Hk Hp].
    assert (Oa : ok a).
    { rewrite Forall_forall in Hok. apply Hok.
      eapply Permutation_in; [apply sort_perm | exact Ha]. }
    assert (Ob : ok b).
    { rewrite Forall_forall in Hok. apply Hok.
      eapply Permutation_in; [apply sort_perm | exact Hb]. }
    destruct Oa as (za & Ea & Ra), Ob as (zb & Eb & Rb).
    rewrite Ea, Eb in Hk, Hp. rewrite !toZ_lit in Hk, Hp by assumption.
    split.
    + rewrite Ea, Eb. destruct (points_order Ra Rb) as [_ ->].
      apply Z.leb_le. exact Hk.
    + intros E. apply Hp. rewrite Ea, Eb in E.
      rewrite <- (toZ_lit Ra), <- (toZ_lit Rb). rewrite E. reflexivity.
  - apply sort_sorted with (ok := ok).
    + exact Hcmp.
    + exact Hok.
    + apply evaluated_in_order.
Qed.

(** C9.  Two forecasts whose hourly sequences agree on their first
    [min 24 length] records are ranked identically, whatever their current
    snapshots, daily records, cities, time zones and later hours. *)
Theorem rankActivities_window_only (f1 f2 : WeatherForecast) :
  firstn 24 (hourly f1) = firstn 24 (hourly f2) ->
  rankActivities f1 = rankActivities f2.
Proof.
  intros H. rewrite !rankActivities_eq. now rewrite H.
Qed.

Lemma rankActivities_window_only_witness :
  firstn 24 (hourly forecastA) = firstn 24 (hourly forecastB) /\
  hourly forecastA <> hourly forecastB /\
  rankActivities forecastA = rankActivities forecastB.
Proof.
  split; [reflexivity|]. split; [discriminate|].
  apply (rankActivities_window_only forecastA forecastB). reflexivity.
Defined.

(* ------------------------------------------------------------------------- *)
(** ** Indoor sightseeing *)
(* ------------------------------------------------------------------------- *)

(** The great-outdoor-weather rule fires only when none of the rules that
    add to the indoor score does. *)
Lemma great_outdoor_excludes_bonuses (p t w : number) :
  greatOutdoorWeather p t w = true ->
  (p >= lit 5)%js = false /\ (p >= lit 2)%js = false /\
  (t < lit 0)%js = false /\ (t > lit 35)%js = false /\
  (w > lit 60)%js = false.
Proof.
  unfold greatOutdoorWeather. intros H.
  apply andb_prop in H. destruct H as [H Hw].
  apply andb_prop in H. destruct H as [H Ht28].
  apply andb_prop in H. destruct H as [Hp Ht18].
  repeat split; apply not_true_is_false; intros C.
  - exact (@lt_ge_excl p _ _ (-52) (-50) eq_refl Hp C).
  - exact (@lt_ge_excl p _ _ (-52) (-51) eq_refl Hp C).
  - exact (@neg_ge_excl t _ _ C Ht18).
  - exact (@le_gt_excl t _ _ (-48) (-47) eq_refl Ht28 C).
  - exact (@lt_gt_excl w _ _ (-48) (-47) eq_refl Hw C).
Qed.

(** C10.  For every window, the empty one included, the indoor score is an
    integer of at least 35.  It is exactly 35 when the one subtracting rule
    fires, which happens only when no adding rule does, and at least the
    baseline 50 otherwise. *)
Theorem indoor_score_at_least_35 (hours : list HourlyWeather) :
  exists z : Z,
    score (scoreIndoorSightseeing hours) = lit z /\
    (35 <= z <= 100)%Z /\ (z = 35 \/ 50 <= z)%Z.
Proof.
  assert (H : scoreIs (fun z => Z.leb 35 z && Z.leb z 100
                                && (Z.eqb z 35 || Z.leb 50 z))
                (scoreIndoorSightseeing hours) = true).
  { unfold scoreIndoorSightseeing. name_aggregates.
    unfold scoreIs, indoorGreatOutdoor. cbn [score].
    destruct (greatOutdoorWeather avg avg0 avg1) eqn:G.
    - destruct (great_outdoor_excludes_bonuses _ _ _ G)
        as (P5 & P2 & T0 & T35 & W60).
      unfold indoorPrecipitation, indoorTemperature, indoorWind, indoorFallback.
      rewrite P5, P2, T0, T35, W60. hide_texts. vm_compute. reflexivity.
    - unfold indoorPrecipitation, indoorTemperature, indoorWind, indoorFallback.
      hide_texts. split_ifs; vm_compute; reflexivity. }
  apply scoreIs_sound in H. destruct H as (z & Hz & H).
  apply andb_prop in H. destruct H as [H Hd].
  apply andb_prop in H. destruct H as [Hlo Hhi].
  apply Z.leb_le in Hlo. apply Z.leb_le in Hhi.
  exists z. repeat split; try assumption.
  apply orb_prop in Hd. destruct Hd as [E|E].
  - left. apply Z.eqb_eq. exact E.
  - right. apply Z.leb_le. exact E.
Qed.

(** C8.  In a window averaging 10 mm of rain, 12 degrees and 15 km/h of
    wind, whatever its weather codes, the indoor score is at least 60 and
    strictly above the outdoor score. *)
Theorem heavy_rain_prefers_indoor (hours : list HourlyWeather) :
  average (map precipitation hours) = lit 10 ->
  average (map temperature2m hours) = lit 12 ->
  average (map windspeed10m hours) = lit 15 ->
  (score (scoreIndoorSightseeing hours) >= lit 60)%js = true /\
  (score (scoreIndoorSightseeing hours)
   > score (scoreOutdoorSightseeing hours))%js = true.
Proof.
  intros Hp Ht Hw.
  unfold scoreIndoorSightseeing, scoreOutdoorSightseeing. cbv zeta.
  rewrite Hp, Ht, Hw. cbn [score].
  generalize (clearRatio hours) as ratio. intros ratio.
  unfold outdoorSky.
  destruct (ratio >= dec 7 1)%js; [|destruct (ratio >= dec 4 1)%js];
    split; vm_compute; reflexivity.
Qed.

Lemma heavy_rain_prefers_indoor_witness :
  average (map precipitation (window rainyHour)) = lit 10 /\
  average (map temperature2m (window rainyHour)) = lit 12 /\
  average (map windspeed10m (window rainyHour)) = lit 15 /\
  (score (scoreIndoorSightseeing (window rainyHour)) >= lit 60)%js = true /\
  (score (scoreIndoorSightseeing (window rainyHour))
   > score (scoreOutdoorSightseeing (window rainyHour)))%js = true.
Proof.
  split; [vm_compute; reflexivity|].
  split; [vm_compute; reflexivity|].
  split; [vm_compute; reflexivity|].
  apply (heavy_rain_prefers_indoor (window rainyHour));
    vm_compute; reflexivity.
Defined.

(* ------------------------------------------------------------------------- *)
(** ** Surfing: the temperature rule *)
(* ------------------------------------------------------------------------- *)

(** A number above a threshold is at least every threshold of a smaller
    binary exponent, and is not below or at its own. *)
Lemma gt_ge_lower (x : number) (ma mb : positive) (ea eb : Z) :
  (ea < eb)%Z ->
  (x > S754_finite false mb eb)%js = true ->
  (x >= S754_finite false ma ea)%js = true.
Proof.
  unfold gt, ge, SFltb, SFleb. intros Hlt H.
  destruct x as [s|s| |s m e]; simpl in *; try discriminate.
  - destruct s; [discriminate | reflexivity].
  - destruct s; try discriminate.
    destruct (Z.compare_spec eb e), (Z.compare_spec ea e);
      try discriminate; try reflexivity; lia.
Qed.

Lemma gt_not_le (x : number) (mb : positive) (eb : Z) :
  (x > S754_finite false mb eb)%js = true ->
  (x <= S754_finite false mb eb)%js = false.
Proof.
  unfold gt, le, SFltb, SFleb. intros H.
  destruct x as [s|s| |s m e]; simpl in *; try discriminate.
  - destruct s; [discriminate | reflexivity].
  - destruct s; try discriminate.
    destruct (Z.compare_spec eb e), (Z.compare_spec e eb);
      try discriminate; try reflexivity; try lia.
    change (Pos.compare_cont Eq mb m) with (Pos.compare mb m) in H.
    change (Pos.compare_cont Eq m mb) with (Pos.compare m mb).
    rewrite Pos.compare_antisym.
    destruct (Pos.compare mb m); try discriminate; reflexivity.
Qed.

(** Every mean temperature above 32 takes the second branch of the rule:
    15 points and the reason written for cool weather. *)
Lemma surfingTemperature_above_32 (avgTemp : number) (st : state) :
  (avgTemp > lit 32)%js = true ->
  surfingTemperature avgTemp st =
  ((fst st + lit 15)%js,
   push (snd st) [Text "cool but manageable temperature ("; Fixed avgTemp 1;
                  Text "°C)"]).
Proof.
  intros H. unfold surfingTemperature. destruct st as [s r]. cbn [fst snd].
  assert (L : (avgTemp <= lit 32)%js = false)
    by exact (@gt_not_le avgTemp _ (-47) H).
  assert (G : (avgTemp >= lit 12)%js = true)
    by exact (@gt_ge_lower avgTemp _ _ (-49) (-47) eq_refl H).
  rewrite L, G, andb_false_r. reflexivity.
Qed.

(** C5, at a window of 35 degrees: the mean temperature is 35, above the
    comfortable band, and the rule adds 15 points with the reason for cool
    weather instead of adding nothing. *)
Theorem surfing_hot_window_scored_as_cool :
  average (map temperature2m (window hotHour)) = lit 35 /\
  (lit 35 > lit 32)%js = true /\
  surfingTemperature (average (map temperature2m (window hotHour))) (lit 0, []) =
  (lit 15,
   [[Text "cool but manageable temperature ("; Fixed (lit 35) 1; Text "°C)"]]).
Proof.
  repeat split; vm_compute; reflexivity.
Qed.

(* ------------------------------------------------------------------------- *)
(** ** Skiing: the unit of the snow depth *)
(* ------------------------------------------------------------------------- *)

(** C6, at a window of ideal skiing weather over 50 cm of snow.  The
    provider reports the depth in metres and [mapToForecast] hands its
    values on unchanged, so each record holds 0.5; [scoreSkiing] reads that
    figure against thresholds of 30 and 10 and finds the snow
    insufficient.  The score is 35 + 0 + 15 + 10 = 60, below 70, while the
    same window with the depth written as 50 scores 100. *)
Theorem skiing_half_metre_scores_60 :
  (exists f tf,
     WeatherService.mapToForecast someCity skiPayload = WeatherService.Normal f /\
     Runtime.typed f = Some tf /\
     hourly tf = window skiHourMetres) /\
  average (map temperature2m (window skiHourMetres)) = lit (-8) /\
  average (map windspeed10m (window skiHourMetres)) = lit 20 /\
  average (map precipitation (window skiHourMetres)) = dec 5 1 /\
  score (scoreSkiing (window skiHourMetres)) = lit 60 /\
  (score (scoreSkiing (window skiHourMetres)) >= lit 70)%js = false /\
  suitable (scoreSkiing (window skiHourMetres)) = true /\
  score (scoreSkiing (window skiHourCentimetres)) = lit 100.
Proof.
  split.
  - eexists. eexists. split; [vm_compute; reflexivity|].
    split; vm_compute; reflexivity.
  - repeat split; vm_compute; reflexivity.
Qed.

(* ------------------------------------------------------------------------- *)
(** ** The empty window *)
(* ------------------------------------------------------------------------- *)

(** C7, at the empty window: the ranking is produced and the means are 0,
    as is the clear-sky ratio of the outdoor scorer, which divides by
    [Math.max(hours.length, 1)]; the ratio the surfing scorer computes is
    0 / 0, that is NaN. *)
Theorem empty_window_surfing_ratio_is_NaN :
  map type (rankActivities emptyForecast) =
    [INDOOR_SIGHTSEEING; SURFING; SKIING; OUTDOOR_SIGHTSEEING] /\
  average (map temperature2m []) = lit 0 /\
  average (map windspeed10m []) = lit 0 /\
  average (map precipitation []) = lit 0 /\
  clearRatio [] = lit 0 /\
  surfingClearRatio [] = NaN /\
  surfingClearRatio [] <> lit 0.
Proof.
  repeat split; try (vm_compute; reflexivity).
  vm_compute. discriminate.
Qed.

(* ------------------------------------------------------------------------- *)
(** ** Properties of the normaliser *)
(* ------------------------------------------------------------------------- *)

Module NormaliserFacts.
Import WeatherService Props.

Lemma index_noShapeError (A : Type) (arr : option (list A)) (i : nat) :
  noShapeError (index arr i).
Proof. destruct arr; discriminate. Qed.

Lemma bind_noShapeError (A B : Type) (c : completion A) (k : A -> completion B) :
  noShapeError c -> (forall a, noShapeError (k a)) -> noShapeError (bind c k).
Proof.
  intros Hc Hk. destruct c as [a|e]; simpl.
  - apply Hk.
  - intros E. apply Hc. inversion E. reflexivity.
Qed.

Lemma mapFrom_noShapeError (A B : Type) (f : A -> nat -> completion B)
  (a : list A) :
  (forall x i, noShapeError (f x i)) -> forall i, noShapeError (mapFrom f i a).
Proof.
  intros Hf. induction a as [|x rest IH]; intros i; cbn [mapFrom].
  - discriminate.
  - apply bind_noShapeError; [apply Hf|]. intros y.
    apply bind_noShapeError; [apply IH|]. discriminate.
Qed.

Lemma arrayMap_noShapeError (A B : Type) (arr : option (list A))
  (f : A -> nat -> completion B) :
  (forall x i, noShapeError (f x i)) -> noShapeError (arrayMap arr f).
Proof.
  intros Hf. destruct arr as [a|]; simpl.
  - now apply mapFrom_noShapeError.
  - discriminate.
Qed.

Lemma hourlyRecord_noShapeError (h : Payload.Hourly) (time : string) (i : nat) :
  noShapeError (hourlyRecord h time i).
Proof.
  unfold hourlyRecord.
  repeat (apply bind_noShapeError; [apply index_noShapeError | intros ?]).
  discriminate.
Qed.

Lemma dailyRecord_noShapeError (d : Payload.Daily) (date : string) (i : nat) :
  noShapeError (dailyRecord d date i).
Proof.
  unfold dailyRecord.
  repeat (apply bind_noShapeError; [apply index_noShapeError | intros ?]).
  discriminate.
Qed.

Lemma mapToForecast_noShapeError (city : Types.City)
  (raw : Payload.OpenMeteoForecastResponse) :
  noShapeError (mapToForecast city raw).
Proof.
  unfold mapToForecast.
  apply bind_noShapeError.
  - unfold properties. destruct (Payload.current raw); discriminate.
  - intros current. apply bind_noShapeError.
    + apply arrayMap_noShapeError, hourlyRecord_noShapeError.
    + intros hs. apply bind_noShapeError.
      * apply arrayMap_noShapeError, dailyRecord_noShapeError.
      * discriminate.
Qed.

(** With its four arrays present the hourly callback completes, whatever
    their lengths. *)
Lemma hourlyRecord_present (h : Payload.Hourly) (time : string) (i : nat) :
  Props.requiredHourlyPresent h = true ->
  hourlyRecord h time i = Normal (Props.hourlyAt h i time).
Proof.
  unfold Props.requiredHourlyPresent, hourlyRecord, Props.hourlyAt.
  destruct (Payload.hourly_temperature_2m h), (Payload.hourly_windspeed_10m h),
    (Payload.hourly_precipitation h), (Payload.hourly_weathercode h);
    simpl; try discriminate.
  reflexivity.
Qed.

(** With one of them missing it raises a [TypeError]. *)
Lemma hourlyRecord_missing (h : Payload.Hourly) (time : string) (i : nat) :
  Props.requiredHourlyPresent h = false ->
  hourlyRecord h time i = Throw TypeError.
Proof.
  unfold Props.requiredHourlyPresent, hourlyRecord.
  destruct (Payload.hourly_temperature_2m h), (Payload.hourly_windspeed_10m h),
    (Payload.hourly_precipitation h), (Payload.hourly_weathercode h);
    simpl; try discriminate; reflexivity.
Qed.

Lemma dailyRecord_present (d : Payload.Daily) (date : string) (i : nat) :
  Props.requiredDailyPresent d = true ->
  exists r, dailyRecord d date i = Normal r.
Proof.
  unfold Props.requiredDailyPresent, dailyRecord.
  destruct (Payload.temperature_2m_max d), (Payload.temperature_2m_min d),
    (Payload.precipitation_sum d), (Payload.windspeed_10m_max d),
    (Payload.daily_weathercode d); simpl; try discriminate.
  intros _. eexists. reflexivity.
Qed.

Lemma mapFrom_hourly (h : Payload.Hourly) (times : list string) :
  Props.requiredHourlyPresent h = true ->
  forall i0, exists rs,
    mapFrom (hourlyRecord h) i0 times = Normal rs /\
    List.length rs = List.length times /\
    forall k t, nth_error times k = Some t ->
                nth_error rs k = Some (Props.hourlyAt h (i0 + k) t).
Proof.
  intros Hp. induction times as [|t0 rest IH]; intros i0; cbn [mapFrom].
  - exists []. repeat split. intros [|k] t; discriminate.
  - rewrite (hourlyRecord_present _ _ _ Hp). cbn [bind].
    destruct (IH (S i0)) as (rs & E & L & N). rewrite E. cbn [bind].
    eexists. split; [reflexivity|]. split; [simpl; now rewrite L|].
    intros [|k] t Hk; simpl in *.
    + inversion Hk; subst. now rewrite Nat.add_0_r.
    + rewrite (N k t Hk). now rewrite Nat.add_succ_r.
Qed.

Lemma mapFrom_daily (d : Payload.Daily) (dates : list string) :
  Props.requiredDailyPresent d = true ->
  forall i0, exists rs, mapFrom (dailyRecord d) i0 dates = Normal rs.
Proof.
  intros Hp. induction dates as [|t0 rest IH]; intros i0; cbn [mapFrom].
  - eexists. reflexivity.
  - destruct (dailyRecord_present d t0 i0 Hp) as (r & E). rewrite E. cbn [bind].
    destruct (IH (S i0)) as (rs & E'). rewrite E'. cbn [bind].
    eexists. reflexivity.
Qed.

(** In a payload that keeps the aligned-array invariant no required field
    of an hourly record is [undefined]. *)
Lemma aligned_hour_is_typed (h : Payload.Hourly) (times : list string)
  (i : nat) (t : string) :
  Payload.hourly_time h = Some times ->
  Props.hourlyWellFormed h = true ->
  nth_error times i = Some t ->
  exists typed, Runtime.typedHour (Props.hourlyAt h i t) = Some typed.
Proof.
  intros Ht Hw Hi.
  assert (Hlt : i < List.length times) by (apply nth_error_Some; congruence).
  assert (R : forall arr : option (list JS.number),
             Props.aligned (Some times) arr = true ->
             exists x, optIndex arr i = Some x).
  { intros [a|]; simpl; [|discriminate]. intros E. apply Nat.eqb_eq in E.
    destruct (nth_error a i) eqn:N; [eexists; reflexivity|].
    apply nth_error_None in N. lia. }
  unfold Props.hourlyWellFormed in Hw. rewrite Ht in Hw.
  repeat (apply andb_prop in Hw; let H := fresh "A" in destruct Hw as [Hw H]).
  destruct (R _ Hw) as (x1 & E1), (R _ A2) as (x2 & E2),
    (R _ A1) as (x3 & E3), (R _ A0) as (x4 & E4).
  unfold Runtime.typedHour, Props.hourlyAt. cbn [Runtime.temperature2m
    Runtime.windspeed10m Runtime.precipitation Runtime.weathercode].
  rewrite E1, E2, E3, E4. eexists. reflexivity.
Qed.

End NormaliserFacts.

Import WeatherService NormaliserFacts.

(** C1, as the code has it.  The normaliser checks no shape and never
    signals a [DataShapeError].  With the current object and every required
    array present it completes, whatever the lengths and whatever the
    current object holds: the current conditions are the fields of the
    current object, [undefined] where one is missing; the hourly sequence
    has one record per element of the time array, and record [i] holds
    element [i] of each array, [undefined] where an array is shorter, while
    elements past the end of the time array are not read.  A payload
    without its current object raises a [TypeError], and so does the first
    hourly record when a required hourly array is missing. *)
Theorem mapToForecast_checks_no_shape (city : Types.City)
  (raw : Payload.OpenMeteoForecastResponse) :
  mapToForecast city raw <> Throw DataShapeError /\
  (requiredPresent raw = true ->
   exists f, mapToForecast city raw = Normal f /\
     (forall c, Payload.current raw = Some c ->
        Runtime.current f = currentRecord c) /\
     forall times, Payload.hourly_time (Payload.hourly raw) = Some times ->
       List.length (Runtime.hourly f) = List.length times /\
       forall i t, nth_error times i = Some t ->
         nth_error (Runtime.hourly f) i
         = Some (hourlyAt (Payload.hourly raw) i t)) /\
  (Payload.current raw = None -> mapToForecast city raw = Throw TypeError) /\
  (forall t ts,
     Payload.hourly_time (Payload.hourly raw) = Some (t :: ts) ->
     requiredHourlyPresent (Payload.hourly raw) = false ->
     mapToForecast city raw = Throw TypeError).
Proof.
  split; [apply mapToForecast_noShapeError|]. split; [|split].
  - unfold requiredPresent. intros H.
    apply andb_prop in H. destruct H as [H Hd].
    apply andb_prop in H. destruct H as [H Hdt].
    apply andb_prop in H. destruct H as [H Hh].
    apply andb_prop in H. destruct H as [Hc Hht].
    unfold mapToForecast.
    destruct (Payload.current raw) as [c|] eqn:Ec; [|discriminate].
    destruct (Payload.hourly_time (Payload.hourly raw)) as [times|] eqn:Et;
      [|discriminate].
    destruct (Payload.daily_time (Payload.daily raw)) as [dates|] eqn:Ed;
      [|discriminate].
    cbn [properties arrayMap bind].
    destruct (mapFrom_hourly (Payload.hourly raw) times Hh 0) as (rs & E & L & N).
    destruct (mapFrom_daily (Payload.daily raw) dates Hd 0) as (ds & E').
    rewrite E, E'. cbn [bind].
    eexists. split; [reflexivity|]. split.
    + intros c' Hc'. inversion Hc'; subst c'. reflexivity.
    + intros times' Ht. inversion Ht; subst times'. cbn [Runtime.hourly].
      split; [exact L|]. intros i t Hi. exact (N i t Hi).
  - intros Ec. unfold mapToForecast. rewrite Ec. reflexivity.
  - intros t ts Ht Hm. unfold mapToForecast.
    destruct (Payload.current raw); [|reflexivity].
    cbn [properties bind]. rewrite Ht.
    cbn [arrayMap mapFrom]. rewrite (hourlyRecord_missing _ _ _ Hm).
    reflexivity.
Qed.

Lemma mapToForecast_checks_no_shape_witness :
  requiredPresent shortPayload = true /\
  (exists f, mapToForecast someCity shortPayload = Normal f /\
     (forall c, Payload.current shortPayload = Some c ->
        Runtime.current f = currentRecord c) /\
     forall times,
       Payload.hourly_time (Payload.hourly shortPayload) = Some times ->
       List.length (Runtime.hourly f) = List.length times /\
       forall i t, nth_error times i = Some t ->
         nth_error (Runtime.hourly f) i
         = Some (hourlyAt (Payload.hourly shortPayload) i t)) /\
  Payload.current noCurrentPayload = None /\
  mapToForecast someCity noCurrentPayload = Throw TypeError /\
  requiredHourlyPresent (Payload.hourly missingPayload) = false /\
  mapToForecast someCity missingPayload = Throw TypeError.
Proof.
  split; [reflexivity|]. split; [|split; [reflexivity|split; [|split]]].
  - exact (proj1 (proj2 (mapToForecast_checks_no_shape someCity shortPayload))
             eq_refl).
  - exact (proj1 (proj2 (proj2
             (mapToForecast_checks_no_shape someCity noCurrentPayload)))
             eq_refl).
  - reflexivity.
  - exact (proj2 (proj2 (proj2
             (mapToForecast_checks_no_shape someCity missingPayload)))
             _ _ eq_refl eq_refl).
Defined.

(** C1 fails on the code: a payload whose temperature array is shorter than
    its time array is not rejected.  The forecast is returned with the
    second temperature [undefined]; a current object that carries its time
    alone is not rejected either, and the current conditions come back with
    their four readings [undefined]; and a payload without its temperature
    array, or without its current object, ends in a [TypeError], not in a
    [DataShapeError]. *)
Lemma short_array_is_not_rejected :
  hourlyWellFormed (Payload.hourly shortPayload) = false /\
  mapToForecast someCity shortPayload <> Throw DataShapeError /\
  (exists f, mapToForecast someCity shortPayload = Normal f /\
     map Runtime.temperature2m (Runtime.hourly f) = [Some (JS.lit 20); None]) /\
  (exists f, mapToForecast someCity bareCurrentPayload = Normal f /\
     Runtime.temperature2m (Runtime.current f) = None /\
     Runtime.windspeed10m (Runtime.current f) = None /\
     Runtime.precipitation (Runtime.current f) = None /\
     Runtime.weathercode (Runtime.current f) = None /\
     Runtime.timezone f = None) /\
  mapToForecast someCity missingPayload = Throw TypeError /\
  mapToForecast someCity noCurrentPayload = Throw TypeError.
Proof.
  split; [reflexivity|]. split; [discriminate|]. split; [|split; [|split]].
  - eexists. split; reflexivity.
  - eexists. split; [reflexivity|]. repeat split.
  - reflexivity.
  - reflexivity.
Qed.

(* ------------------------------------------------------------------------- *)
(** ** More on thresholds *)
(* ------------------------------------------------------------------------- *)

Import Vocabulary.

Module ThresholdFacts.

(** A number at or above a threshold is at or above every threshold of a
    smaller binary exponent; one below a threshold is below every threshold
    of a larger one. *)
Lemma ge_ge_lower (x : number) (ma mb : positive) (ea eb : Z) :
  (ea < eb)%Z ->
  (x >= S754_finite false mb eb)%js = true ->
  (x >= S754_finite false ma ea)%js = true.
Proof.
  unfold ge, SFleb. intros Hlt H.
  destruct x as [s|s| |s m e]; simpl in *; try discriminate.
  - destruct s; [discriminate | reflexivity].
  - destruct s; try discriminate.
    destruct (Z.compare_spec eb e), (Z.compare_spec ea e);
      try discriminate; try reflexivity; lia.
Qed.

Lemma lt_lt_higher (x : number) (ma mb : positive) (ea eb : Z) :
  (ea < eb)%Z ->
  (x < S754_finite false ma ea)%js = true ->
  (x < S754_finite false mb eb)%js = true.
Proof.
  unfold lt, SFltb. intros Hlt H.
  destruct x as [s|s| |s m e]; simpl in *; try discriminate; try reflexivity.
  - destruct s; [reflexivity | discriminate].
  - destruct s; try reflexivity.
    destruct (Z.compare_spec e ea), (Z.compare_spec e eb);
      try discriminate; try reflexivity; lia.
Qed.

Lemma neg_gt_excl (x : number) (mb : positive) (eb : Z) :
  (x < S754_zero false)%js = true ->
  (x > S754_finite false mb eb)%js = true -> False.
Proof.
  unfold lt, gt, SFltb. intros H1 H2.
  destruct x as [s|s| |s m e]; simpl in *; try discriminate.
  - destruct s; discriminate.
  - destruct s; discriminate.
Qed.

(** Comparing with a positive constant from the other side gives the
    opposite answer. *)
Lemma compare_const_antisym (x : number) (m : positive) (e : Z) :
  SFcompare (S754_finite false m e) x
  = option_map CompOpp (SFcompare x (S754_finite false m e)).
Proof.
  destruct x as [s|s| |s n f]; cbn [SFcompare option_map]; try reflexivity.
  - destruct s; reflexivity.
  - destruct s; [reflexivity|]. f_equal.
    rewrite (Z.compare_antisym f e).
    destruct (f ?= e)%Z; cbn [CompOpp]; try reflexivity.
    change (Pos.compare m n = CompOpp (Pos.compare n m)).
    apply Pos.compare_antisym.
Qed.

Lemma ge_not_lt (x : number) (m : positive) (e : Z) :
  (x >= S754_finite false m e)%js = true ->
  (x < S754_finite false m e)%js = false.
Proof.
  unfold ge, lt, SFleb, SFltb. rewrite compare_const_antisym.
  destruct (SFcompare x (S754_finite false m e)) as [[| |]|];
    cbn [option_map CompOpp]; try discriminate; reflexivity.
Qed.

Lemma Math_min_at_most (x : number) (m : positive) (e : Z) :
  (Math_min x (S754_finite false m e) > S754_finite false m e)%js = false.
Proof.
  unfold gt, SFltb, Math_min.
  destruct (SFcompare x (S754_finite false m e)) as [[| |]|] eqn:C.
  - assert (E : (match x with
                 | S754_zero false => S754_finite false m e
                 | _ => x
                 end) = x).
    { destruct x as [[|]| | |]; try reflexivity; discriminate. }
    rewrite E, compare_const_antisym, C. reflexivity.
  - rewrite compare_const_antisym, C. reflexivity.
  - cbn [SFcompare]. rewrite Z.compare_refl.
    change (Pos.compare_cont Eq m m) with (Pos.compare m m).
    rewrite Pos.compare_refl. reflexivity.
  - reflexivity.
Qed.

Lemma Math_min_small (x : number) (m : positive) (e : Z) :
  (x <= S754_finite false m e)%js = true ->
  Math_min x (S754_finite false m e) = x.
Proof.
  unfold le, SFleb, Math_min.
  destruct (SFcompare x (S754_finite false m e)) as [[| |]|] eqn:C;
    try discriminate; intros _; [|reflexivity].
  destruct x as [[|]| | |]; try reflexivity; discriminate.
Qed.

Lemma Math_min_large (x : number) (m : positive) (e : Z) :
  (x > S754_finite false m e)%js = true ->
  Math_min x (S754_finite false m e) = S754_finite false m e.
Proof.
  unfold gt, SFltb, Math_min. rewrite compare_const_antisym.
  destruct (SFcompare x (S754_finite false m e)) as [[| |]|];
    cbn [option_map CompOpp]; try discriminate. reflexivity.
Qed.

Lemma scoreAtMost_sound (hi : Z) (a : Activity) :
  scoreAtMost hi a = true ->
  exists z, score a = lit z /\ (0 <= z <= hi)%Z /\ suitable a = false.
Proof.
  unfold scoreAtMost. intros H. apply andb_prop in H. destruct H as [H Hs].
  apply scoreIs_sound in H. destruct H as (z & Hz & H).
  apply andb_prop in H. destruct H as [Hlo Hhi].
  exists z. repeat split; try assumption.
  - apply Z.leb_le. exact Hlo.
  - apply Z.leb_le. exact Hhi.
  - apply negb_true_iff. exact Hs.
Qed.

End ThresholdFacts.

Import ThresholdFacts.

(* ------------------------------------------------------------------------- *)
(** ** What the weather rules out *)
(* ------------------------------------------------------------------------- *)

(** X1.  When the mean temperature of the window is above 2 degrees, the
    skiing score is at most 55 and skiing is not suitable, whatever the
    snow, the wind and the precipitation. *)
Theorem skiing_too_warm_is_unsuitable (hours : list HourlyWeather) :
  (average (map temperature2m hours) > lit 2)%js = true ->
  exists z, score (scoreSkiing hours) = lit z /\ (0 <= z <= 55)%Z /\
            suitable (scoreSkiing hours) = false.
Proof.
  intros H. apply scoreAtMost_sound.
  unfold scoreSkiing. revert H.
  generalize (average (map temperature2m hours)) as t. intros t H.
  name_aggregates.
  assert (L : (t <= lit 2)%js = false) by exact (@gt_not_le t _ (-51) H).
  assert (N : (t < lit 0)%js = false).
  { apply not_true_is_false. intros C. exact (@neg_gt_excl t _ _ C H). }
  unfold scoreAtMost, scoreIs, skiingTemperature, skiingSnow, skiingWind,
    skiingPowder.
  cbn [score suitable fst snd]. rewrite L, N, !andb_false_r. hide_texts.
  split_ifs; vm_compute; reflexivity.
Qed.

Lemma skiing_too_warm_is_unsuitable_witness :
  (average (map temperature2m (window mildHour)) > lit 2)%js = true /\
  exists z, score (scoreSkiing (window mildHour)) = lit z /\ (0 <= z <= 55)%Z /\
            suitable (scoreSkiing (window mildHour)) = false.
Proof.
  split; [vm_compute; reflexivity|].
  apply (skiing_too_warm_is_unsuitable (window mildHour)).
  vm_compute. reflexivity.
Defined.

(** X2.  When the mean wind of the window is above 60 km/h, the skiing score
    is at most 55 and skiing is not suitable. *)
Theorem skiing_dangerous_wind_is_unsuitable (hours : list HourlyWeather) :
  (average (map windspeed10m hours) > lit 60)%js = true ->
  exists z, score (scoreSkiing hours) = lit z /\ (0 <= z <= 55)%Z /\
            suitable (scoreSkiing hours) = false.
Proof.
  intros H. apply scoreAtMost_sound.
  unfold scoreSkiing. revert H.
  generalize (average (map windspeed10m hours)) as w. intros w H.
  name_aggregates.
  unfold scoreAtMost, scoreIs, skiingTemperature, skiingSnow, skiingWind,
    skiingPowder.
  cbn [score suitable fst snd]. rewrite H. hide_texts.
  split_ifs; vm_compute; reflexivity.
Qed.

Lemma skiing_dangerous_wind_is_unsuitable_witness :
  (average (map windspeed10m (window windySkiHour)) > lit 60)%js = true /\
  exists z, score (scoreSkiing (window windySkiHour)) = lit z /\
            (0 <= z <= 55)%Z /\
            suitable (scoreSkiing (window windySkiHour)) = false.
Proof.
  split; [vm_compute; reflexivity|].
  apply (skiing_dangerous_wind_is_unsuitable (window windySkiHour)).
  vm_compute. reflexivity.
Defined.

(** X3.  When the mean wind of the window is above 50 km/h, the surfing
    score is at most 40 and surfing is not suitable. *)
Theorem surfing_dangerous_wind_is_unsuitable (hours : list HourlyWeather) :
  (average (map windspeed10m hours) > lit 50)%js = true ->
  exists z, score (scoreSurfing hours) = lit z /\ (0 <= z <= 40)%Z /\
            suitable (scoreSurfing hours) = false.
Proof.
  intros H. apply scoreAtMost_sound.
  unfold scoreSurfing, surfingClearSky. revert H.
  generalize (average (map windspeed10m hours)) as w. intros w H.
  name_aggregates.
  assert (L30 : (w <= lit 30)%js = false).
  { apply not_true_is_false. intros C.
    exact (@le_gt_excl w _ _ (-48) (-47) eq_refl C H). }
  assert (L50 : (w <= lit 50)%js = false) by exact (@gt_not_le w _ (-47) H).
  assert (L10 : (w < lit 10)%js = false).
  { apply not_true_is_false. intros C.
    exact (@lt_gt_excl w _ _ (-49) (-47) eq_refl C H). }
  unfold scoreAtMost, scoreIs, surfingTemperature, surfingWind,
    surfingPrecipitation.
  cbn [score suitable fst snd]. rewrite L30, L50, L10, !andb_false_r.
  hide_texts.
  split_ifs; vm_compute; reflexivity.
Qed.

Lemma surfing_dangerous_wind_is_unsuitable_witness :
  (average (map windspeed10m (window stormHour)) > lit 50)%js = true /\
  exists z, score (scoreSurfing (window stormHour)) = lit z /\
            (0 <= z <= 40)%Z /\
            suitable (scoreSurfing (window stormHour)) = false.
Proof.
  split; [vm_compute; reflexivity|].
  apply (surfing_dangerous_wind_is_unsuitable (window stormHour)).
  vm_compute. reflexivity.
Defined.

(** X4.  Rain of 2 mm or more together with wind above 50 km/h keeps the
    outdoor sightseeing score at 30 or below, so that it is not suitable,
    whatever the temperature and the sky. *)
Theorem outdoor_rain_and_gale_is_unsuitable (hours : list HourlyWeather) :
  (average (map precipitation hours) >= lit 2)%js = true ->
  (average (map windspeed10m hours) > lit 50)%js = true ->
  exists z, score (scoreOutdoorSightseeing hours) = lit z /\
            (0 <= z <= 30)%Z /\
            suitable (scoreOutdoorSightseeing hours) = false.
Proof.
  intros Hp Hw. apply scoreAtMost_sound.
  unfold scoreOutdoorSightseeing. revert Hp Hw.
  generalize (average (map precipitation hours)) as p.
  generalize (average (map windspeed10m hours)) as w. intros w p Hp Hw.
  name_aggregates.
  assert (Q2 : (p < lit 2)%js = false) by exact (@ge_not_lt p _ (-51) Hp).
  assert (Q05 : (p < dec 5 1)%js = false).
  { apply not_true_is_false. intros C.
    exact (@lt_ge_excl p _ _ (-53) (-51) eq_refl C Hp). }
  unfold scoreAtMost, scoreIs, outdoorTemperature, outdoorSky,
    outdoorPrecipitation, outdoorWind.
  cbn [score suitable fst snd]. rewrite Q2, Q05, Hw. hide_texts.
  split_ifs; vm_compute; reflexivity.
Qed.

Lemma outdoor_rain_and_gale_is_unsuitable_witness :
  (average (map precipitation (window stormHour)) >= lit 2)%js = true /\
  (average (map windspeed10m (window stormHour)) > lit 50)%js = true /\
  exists z, score (scoreOutdoorSightseeing (window stormHour)) = lit z /\
            (0 <= z <= 30)%Z /\
            suitable (scoreOutdoorSightseeing (window stormHour)) = false.
Proof.
  split; [vm_compute; reflexivity|]. split; [vm_compute; reflexivity|].
  apply (outdoor_rain_and_gale_is_unsuitable (window stormHour));
    vm_compute; reflexivity.
Defined.

(** X5.  Of two windows with the same mean temperature, snow depth and
    precipitation, the one whose mean wind is above 60 km/h gets a strictly
    lower skiing score than the one whose mean wind is at most 30 km/h. *)
Theorem skiing_wind_penalty (calm windy : list HourlyWeather) :
  average (map temperature2m windy) = average (map temperature2m calm) ->
  average (map snowOrZero windy) = average (map snowOrZero calm) ->
  average (map precipitation windy) = average (map precipitation calm) ->
  (average (map windspeed10m windy) > lit 60)%js = true ->
  (average (map windspeed10m calm) <= lit 30)%js = true ->
  (score (scoreSkiing windy) < score (scoreSkiing calm))%js = true.
Proof.
  intros Ht Hs Hp Hw Hc. unfold scoreSkiing.
  change (fun h : HourlyWeather =>
            match snowDepth h with
            | Some d => d
            | None => lit 0
            end) with snowOrZero.
  rewrite Ht, Hs, Hp. revert Hw Hc.
  generalize (average (map windspeed10m windy)) as w1.
  generalize (average (map windspeed10m calm)) as w2. intros w2 w1 Hw Hc.
  name_aggregates.
  assert (G : (w2 > lit 60)%js = false).
  { apply not_true_is_false. intros C.
    exact (@le_gt_excl w2 _ _ (-48) (-47) eq_refl Hc C). }
  unfold skiingTemperature, skiingSnow, skiingWind, skiingPowder.
  cbn [score fst snd]. rewrite Hw, Hc, G. hide_texts.
  split_ifs; vm_compute; reflexivity.
Qed.

Lemma skiing_wind_penalty_witness :
  (average (map windspeed10m (window windySkiHour)) > lit 60)%js = true /\
  (average (map windspeed10m (window calmSkiHour)) <= lit 30)%js = true /\
  (score (scoreSkiing (window windySkiHour))
   < score (scoreSkiing (window calmSkiHour)))%js = true.
Proof.
  split; [vm_compute; reflexivity|]. split; [vm_compute; reflexivity|].
  apply (skiing_wind_penalty (window calmSkiHour) (window windySkiHour));
    vm_compute; reflexivity.
Defined.

(** X6.  Whenever the window is great outdoor weather (under 1 mm of rain,
    18 to 28 degrees, wind under 20 km/h), the indoor score is exactly 35
    and the outdoor score is at least 55, hence strictly higher. *)
Theorem great_outdoor_weather_prefers_outdoor (hours : list HourlyWeather) :
  greatOutdoorWeather (average (map precipitation hours))
    (average (map temperature2m hours))
    (average (map windspeed10m hours)) = true ->
  score (scoreIndoorSightseeing hours) = lit 35 /\
  (score (scoreOutdoorSightseeing hours) >= lit 55)%js = true /\
  (score (scoreOutdoorSightseeing hours)
   > score (scoreIndoorSightseeing hours))%js = true.
Proof.
  intros G. unfold scoreIndoorSightseeing, scoreOutdoorSightseeing. revert G.
  generalize (average (map precipitation hours)) as p.
  generalize (average (map temperature2m hours)) as t.
  generalize (average (map windspeed10m hours)) as w.
  generalize (clearRatio hours) as ratio. intros ratio w t p G.
  destruct (great_outdoor_excludes_bonuses _ _ _ G)
    as (P5 & P2 & T0 & T35 & W60).
  unfold indoorGreatOutdoor. rewrite G.
  unfold greatOutdoorWeather in G.
  apply andb_prop in G. destruct G as [G Hw].
  apply andb_prop in G. destruct G as [G Ht28].
  apply andb_prop in G. destruct G as [Hp Ht18].
  assert (T15 : (t >= lit 15)%js = true)
    by exact (@ge_ge_lower t _ _ (-49) (-48) eq_refl Ht18).
  assert (Q2 : (p < lit 2)%js = true)
    by exact (@lt_lt_higher p _ _ (-52) (-51) eq_refl Hp).
  assert (W50 : (w > lit 50)%js = false).
  { apply not_true_is_false. intros C.
    exact (@lt_gt_excl w _ _ (-48) (-47) eq_refl Hw C). }
  unfold indoorPrecipitation, indoorTemperature, indoorWind, indoorFallback,
    outdoorTemperature, outdoorSky, outdoorPrecipitation, outdoorWind.
  cbn [score fst snd].
  rewrite P5, P2, T0, T35, W60, T15, Ht28, Q2, W50, Hw. cbn [andb].
  hide_texts.
  split_ifs; repeat split; vm_compute; reflexivity.
Qed.

Lemma great_outdoor_weather_prefers_outdoor_witness :
  greatOutdoorWeather (average (map precipitation (window perfectHour)))
    (average (map temperature2m (window perfectHour)))
    (average (map windspeed10m (window perfectHour))) = true /\
  score (scoreIndoorSightseeing (window perfectHour)) = lit 35 /\
  (score (scoreOutdoorSightseeing (window perfectHour)) >= lit 55)%js = true /\
  (score (scoreOutdoorSightseeing (window perfectHour))
   > score (scoreIndoorSightseeing (window perfectHour)))%js = true.
Proof.
  split; [vm_compute; reflexivity|].
  apply (great_outdoor_weather_prefers_outdoor (window perfectHour)).
  vm_compute. reflexivity.
Defined.

(** X7.  Heavy rain (a mean of 5 mm or more) or frost (a mean temperature
    below zero) makes indoor sightseeing suitable, with a score of at least
    70. *)
Theorem indoor_suitable_in_bad_weather (hours : list HourlyWeather) :
  (average (map precipitation hours) >= lit 5)%js = true \/
  (average (map temperature2m hours) < lit 0)%js = true ->
  suitable (scoreIndoorSightseeing hours) = true /\
  (score (scoreIndoorSightseeing hours) >= lit 70)%js = true.
Proof.
  unfold scoreIndoorSightseeing.
  generalize (average (map precipitation hours)) as p.
  generalize (average (map temperature2m hours)) as t.
  generalize (average (map windspeed10m hours)) as w. intros w t p H.
  assert (G : greatOutdoorWeather p t w = false).
  { apply not_true_is_false. intros G.
    destruct (great_outdoor_excludes_bonuses _ _ _ G) as (P5 & _ & T0 & _).
    destruct H as [H|H]; congruence. }
  unfold indoorGreatOutdoor. rewrite G.
  unfold indoorPrecipitation, indoorTemperature, indoorWind, indoorFallback.
  cbn [score suitable fst snd].
  destruct H as [H|H]; rewrite H; hide_texts;
    split_ifs; split; vm_compute; reflexivity.
Qed.

Lemma indoor_suitable_in_bad_weather_witness :
  (average (map precipitation (window rainyHour)) >= lit 5)%js = true /\
  suitable (scoreIndoorSightseeing (window rainyHour)) = true /\
  (score (scoreIndoorSightseeing (window rainyHour)) >= lit 70)%js = true.
Proof.
  split; [vm_compute; reflexivity|].
  apply (indoor_suitable_in_bad_weather (window rainyHour)).
  left. vm_compute. reflexivity.
Defined.

(* ------------------------------------------------------------------------- *)
(** ** The reasons *)
(* ------------------------------------------------------------------------- *)

Module ReasonFacts.

Lemma worded_literal (c : Ascii.ascii) (s : string) (rest : text) :
  97 <= Ascii.nat_of_ascii c <= 122 -> worded (Text (String c s) :: rest).
Proof. intros H. exists c, s, rest. split; [reflexivity | exact H]. Qed.

Lemma push_worded (reasons : list text) (r : text) :
  Forall worded reasons -> worded r -> Forall worded (push reasons r).
Proof.
  intros Hr H. unfold push. apply Forall_app. split; [exact Hr|].
  constructor; [exact H | constructor].
Qed.

Lemma push_nonempty (reasons : list text) (r : text) : push reasons r <> [].
Proof. unfold push. destruct reasons; discriminate. Qed.

Lemma join_spoken (sep : string) (st : state) :
  spoken st -> worded (join sep (snd st)).
Proof.
  intros [Hn Hw]. destruct (snd st) as [|first rest]; [congruence|].
  inversion Hw as [|? ? (c & s & r & E & Hc) _]; subst.
  exists c, s, (r ++ flat_map (fun t => Text sep :: t) rest).
  split; [reflexivity | exact Hc].
Qed.

Lemma start_worded (s : number) : wordedState (s, []).
Proof. constructor. Qed.

(** Every reason a rule pushes opens with words. *)
Ltac words :=
  repeat match goal with
         | |- Forall worded (push _ _) => apply push_worded
         | |- worded (Text (String _ _) :: _) =>
             apply worded_literal; vm_compute; split; lia
         | |- _ => assumption
         end.

Ltac rule_cases :=
  repeat match goal with
         | |- context [if ?c then _ else _] =>
             lazymatch type of c with bool => destruct c end
         end;
  cbn [snd].

(** A rule that gives a reason on every path. *)
Ltac always_speaks rule :=
  intros [s r] H; unfold wordedState, spoken in *; cbn [snd] in H;
  unfold rule; rule_cases; (split; [apply push_nonempty | words]).

(** A rule that gives a reason on some paths and none on the others. *)
Ltac keeps_spoken rule :=
  intros [s r] [Hn H]; unfold spoken in *; cbn [snd] in Hn, H;
  unfold rule; rule_cases;
  (split; [first [apply push_nonempty | exact Hn] | words]).

Ltac keeps_worded rule :=
  intros [s r] H; unfold wordedState in *; cbn [snd] in H;
  unfold rule; rule_cases; words.

Lemma skiingTemperature_speaks (t : number) (st : state) :
  wordedState st -> spoken (skiingTemperature t st).
Proof. revert st. always_speaks skiingTemperature. Qed.

Lemma skiingSnow_spoken (x : number) (st : state) :
  spoken st -> spoken (skiingSnow x st).
Proof. revert st. keeps_spoken skiingSnow. Qed.

Lemma skiingWind_spoken (x : number) (st : state) :
  spoken st -> spoken (skiingWind x st).
Proof. revert st. keeps_spoken skiingWind. Qed.

Lemma skiingPowder_spoken (x y : number) (st : state) :
  spoken st -> spoken (skiingPowder x y st).
Proof. revert st. keeps_spoken skiingPowder. Qed.

Lemma surfingTemperature_speaks (t : number) (st : state) :
  wordedState st -> spoken (surfingTemperature t st).
Proof. revert st. always_speaks surfingTemperature. Qed.

Lemma surfingWind_spoken (x : number) (st : state) :
  spoken st -> spoken (surfingWind x st).
Proof. revert st. keeps_spoken surfingWind. Qed.

Lemma surfingPrecipitation_spoken (x : number) (st : state) :
  spoken st -> spoken (surfingPrecipitation x st).
Proof. revert st. keeps_spoken surfingPrecipitation. Qed.

Lemma surfingClearSky_spoken (hours : list HourlyWeather) (st : state) :
  spoken st -> spoken (surfingClearSky hours st).
Proof. revert st. keeps_spoken surfingClearSky. Qed.

Lemma indoorPrecipitation_worded (x : number) (st : state) :
  wordedState st -> wordedState (indoorPrecipitation x st).
Proof. revert st. keeps_worded indoorPrecipitation. Qed.

Lemma indoorTemperature_worded (x : number) (st : state) :
  wordedState st -> wordedState (indoorTemperature x st).
Proof. revert st. keeps_worded indoorTemperature. Qed.

Lemma indoorWind_worded (x : number) (st : state) :
  wordedState st -> wordedState (indoorWind x st).
Proof. revert st. keeps_worded indoorWind. Qed.

Lemma indoorGreatOutdoor_worded (x y z : number) (st : state) :
  wordedState st -> wordedState (indoorGreatOutdoor x y z st).
Proof. revert st. keeps_worded indoorGreatOutdoor. Qed.

(** The generic message fills the gap when no indoor rule spoke. *)
Lemma indoorFallback_speaks (st : state) :
  wordedState st -> spoken (indoorFallback st).
Proof.
  destruct st as [s r]. unfold wordedState, spoken, indoorFallback. cbn [snd].
  intros H. destruct r as [|first rest]; cbn [List.length Nat.eqb snd].
  - split; [apply push_nonempty | words].
  - split; [discriminate | exact H].
Qed.

Lemma outdoorTemperature_speaks (t : number) (st : state) :
  wordedState st -> spoken (outdoorTemperature t st).
Proof. revert st. always_speaks outdoorTemperature. Qed.

Lemma outdoorSky_spoken (x : number) (st : state) :
  spoken st -> spoken (outdoorSky x st).
Proof. revert st. keeps_spoken outdoorSky. Qed.

Lemma outdoorPrecipitation_spoken (x : number) (st : state) :
  spoken st -> spoken (outdoorPrecipitation x st).
Proof. revert st. keeps_spoken outdoorPrecipitation. Qed.

Lemma outdoorWind_spoken (x : number) (st : state) :
  spoken st -> spoken (outdoorWind x st).
Proof. revert st. keeps_spoken outdoorWind. Qed.

Lemma evaluated_worded (hours : list HourlyWeather) :
  Forall (fun a => worded (reason a)) (evaluated hours).
Proof.
  repeat constructor.
  - apply join_spoken, skiingPowder_spoken, skiingWind_spoken,
      skiingSnow_spoken, skiingTemperature_speaks, start_worded.
  - apply join_spoken, surfingClearSky_spoken, surfingPrecipitation_spoken,
      surfingWind_spoken, surfingTemperature_speaks, start_worded.
  - apply join_spoken, indoorFallback_speaks, indoorGreatOutdoor_worded,
      indoorWind_worded, indoorTemperature_worded, indoorPrecipitation_worded,
      start_worded.
  - apply join_spoken, outdoorWind_spoken, outdoorPrecipitation_spoken,
      outdoorSky_spoken, outdoorTemperature_speaks, start_worded.
Qed.

End ReasonFacts.

(** X8.  Every entry returned by [rankActivities] has a reason that is not
    empty: it opens with literal text that starts with a lower-case letter,
    for the indoor scorer too, whose generic message fills in when none of
    its rules fired. *)
Theorem rankActivities_reasons_worded (forecast : WeatherForecast) :
  Forall (fun a => exists c s rest,
            reason a = Text (String c s) :: rest /\
            97 <= Ascii.nat_of_ascii c <= 122)
    (rankActivities forecast).
Proof.
  eapply Permutation_Forall.
  - apply Permutation_sym, rankActivities_perm.
  - apply ReasonFacts.evaluated_worded.
Qed.

(* ------------------------------------------------------------------------- *)
(** ** What the engine reads *)
(* ------------------------------------------------------------------------- *)

Module WindowFacts.

Lemma same_map (f : HourlyWeather -> number) (l1 l2 : list HourlyWeather) :
  (forall h1 h2, sameWeather h1 h2 -> f h1 = f h2) ->
  Forall2 sameWeather l1 l2 -> map f l1 = map f l2.
Proof.
  intros Hf same. induction same as [|h1 h2 r1 r2 H _ IH]; cbn [map].
  - reflexivity.
  - rewrite (Hf _ _ H), IH. reflexivity.
Qed.

Lemma same_length (l1 l2 : list HourlyWeather) :
  Forall2 sameWeather l1 l2 -> JS.length l1 = JS.length l2.
Proof.
  intros same. unfold JS.length. rewrite (Forall2_length same). reflexivity.
Qed.

Lemma same_clearHours (l1 l2 : list HourlyWeather) :
  Forall2 sameWeather l1 l2 -> clearHours l1 = clearHours l2.
Proof.
  intros same. unfold clearHours, JS.length. do 2 f_equal.
  induction same as [|h1 h2 r1 r2 H _ IH]; cbn [filter].
  - reflexivity.
  - destruct H as (_ & _ & _ & E & _). rewrite E.
    destruct (weathercode h2 <= lit 3)%js; cbn [List.length]; rewrite IH;
      reflexivity.
Qed.

Lemma same_scores (l1 l2 : list HourlyWeather) :
  Forall2 sameWeather l1 l2 -> evaluated l1 = evaluated l2.
Proof.
  intros same.
  unfold evaluated, scoreSkiing, scoreSurfing, scoreIndoorSightseeing,
    scoreOutdoorSightseeing, surfingClearSky, surfingClearRatio, clearRatio.
  change (fun h : HourlyWeather =>
            match snowDepth h with
            | Some d => d
            | None => lit 0
            end) with snowOrZero.
  rewrite (@same_map temperature2m l1 l2) by (try exact same; intros ? ? H; apply H).
  rewrite (@same_map windspeed10m l1 l2) by (try exact same; intros ? ? H; apply H).
  rewrite (@same_map precipitation l1 l2) by (try exact same; intros ? ? H; apply H).
  rewrite (@same_map snowOrZero l1 l2) by (try exact same; intros ? ? H; apply H).
  rewrite (same_clearHours same), (same_length same). reflexivity.
Qed.

End WindowFacts.

(** X9.  The ranking reads nothing of an hourly record but its temperature,
    wind speed, precipitation, weather code and snow depth, an absent snow
    depth counting as 0: two forecasts whose first 24 hours agree on these
    are ranked identically, whatever their time stamps and wave heights. *)
Theorem rankActivities_reads_weather_only (f1 f2 : WeatherForecast) :
  Forall2 sameWeather (firstn 24 (hourly f1)) (firstn 24 (hourly f2)) ->
  rankActivities f1 = rankActivities f2.
Proof.
  intros H. rewrite !rankActivities_eq.
  rewrite (WindowFacts.same_scores H). reflexivity.
Qed.

Lemma rankActivities_reads_weather_only_witness :
  Forall2 sameWeather (firstn 24 (hourly forecastA))
    (firstn 24 (hourly forecastC)) /\
  firstn 24 (hourly forecastA) <> firstn 24 (hourly forecastC) /\
  rankActivities forecastA = rankActivities forecastC.
Proof.
  assert (S : Forall2 sameWeather (firstn 24 (hourly forecastA))
                (firstn 24 (hourly forecastC))).
  { cbv [forecastA forecastC forecastOf hourly window repeat firstn app].
    repeat (constructor; [repeat split|]). constructor. }
  split; [exact S|]. split; [discriminate|].
  apply (rankActivities_reads_weather_only forecastA forecastC). exact S.
Defined.

(* ------------------------------------------------------------------------- *)
(** ** The normaliser in closed form *)
(* ------------------------------------------------------------------------- *)

Module ClosedForm.

Lemma indexed_length (A B : Type) (f : nat -> A -> B) (l : list A) :
  forall i, List.length (indexed f i l) = List.length l.
Proof. induction l as [|x r IH]; intros i; simpl; [reflexivity | now rewrite IH]. Qed.

Lemma indexed_nth_error (A B : Type) (f : nat -> A -> B) (l : list A) :
  forall i k, nth_error (indexed f i l) k = option_map (f (i + k)) (nth_error l k).
Proof.
  induction l as [|x r IH]; intros i [|k]; simpl; try reflexivity.
  - now rewrite Nat.add_0_r.
  - rewrite IH. now rewrite Nat.add_succ_r.
Qed.

Lemma indexed_ext (A B : Type) (f g : nat -> A -> B) (l : list A) :
  forall i, (forall k x, k < List.length l -> f (i + k) x = g (i + k) x) ->
            indexed f i l = indexed g i l.
Proof.
  induction l as [|x r IH]; intros i H; simpl; [reflexivity|].
  f_equal.
  - specialize (H 0 x). rewrite Nat.add_0_r in H. apply H. simpl. lia.
  - apply IH. intros k y Hk. specialize (H (S k) y).
    rewrite Nat.add_succ_r in H. apply H. simpl. lia.
Qed.

Lemma dailyRecord_present_eq (d : Payload.Daily) (date : string) (i : nat) :
  requiredDailyPresent d = true -> dailyRecord d date i = Normal (dailyAt d i date).
Proof.
  unfold requiredDailyPresent, dailyRecord, dailyAt.
  destruct (Payload.temperature_2m_max d), (Payload.temperature_2m_min d),
    (Payload.precipitation_sum d), (Payload.windspeed_10m_max d),
    (Payload.daily_weathercode d); simpl; try discriminate.
  reflexivity.
Qed.

Lemma dailyRecord_missing (d : Payload.Daily) (date : string) (i : nat) :
  requiredDailyPresent d = false -> dailyRecord d date i = Throw TypeError.
Proof.
  unfold requiredDailyPresent, dailyRecord.
  destruct (Payload.temperature_2m_max d), (Payload.temperature_2m_min d),
    (Payload.precipitation_sum d), (Payload.windspeed_10m_max d),
    (Payload.daily_weathercode d); simpl; try discriminate; reflexivity.
Qed.

Lemma mapFrom_all (A B : Type) (f : A -> nat -> completion B) (g : nat -> A -> B)
  (l : list A) :
  (forall x i, f x i = Normal (g i x)) ->
  forall i, mapFrom f i l = Normal (indexed g i l).
Proof.
  intros H. induction l as [|x r IH]; intros i; cbn [mapFrom indexed].
  - reflexivity.
  - rewrite H. cbn [bind]. rewrite IH. reflexivity.
Qed.

Lemma arrayMap_part (A B : Type) (f : A -> nat -> completion B) (g : nat -> A -> B)
  (times : option (list A)) (required : bool) :
  (required = true -> forall x i, f x i = Normal (g i x)) ->
  (required = false -> forall x i, f x i = Throw TypeError) ->
  arrayMap times f =
  if partCompletes times required
  then Normal (indexed g 0 (match times with Some l => l | None => [] end))
  else Throw TypeError.
Proof.
  intros Hp Hm. destruct times as [[|t ts]|]; cbn [arrayMap partCompletes].
  - reflexivity.
  - destruct required.
    + apply mapFrom_all. now apply Hp.
    + cbn [mapFrom]. rewrite Hm by reflexivity. reflexivity.
  - reflexivity.
Qed.

Lemma mapToForecast_closed (city : Types.City)
  (raw : Payload.OpenMeteoForecastResponse) :
  mapToForecast city raw =
  if completes raw then Normal (built city raw) else Throw TypeError.
Proof.
  unfold mapToForecast, completes, built.
  rewrite (@arrayMap_part _ _ (hourlyRecord (Payload.hourly raw))
             (hourlyAt (Payload.hourly raw)) _
             (requiredHourlyPresent (Payload.hourly raw))).
  2: { intros H x i. now apply hourlyRecord_present. }
  2: { intros H x i. now apply hourlyRecord_missing. }
  rewrite (@arrayMap_part _ _ (dailyRecord (Payload.daily raw))
             (dailyAt (Payload.daily raw)) _
             (requiredDailyPresent (Payload.daily raw))).
  2: { intros H x i. now apply dailyRecord_present_eq. }
  2: { intros H x i. now apply dailyRecord_missing. }
  unfold currentOf, currentField.
  destruct (Payload.current raw) as [c|];
    cbn [properties present bind andb]; [|reflexivity].
  destruct (partCompletes (Payload.hourly_time (Payload.hourly raw)) _);
    cbn [bind andb]; [|reflexivity].
  destruct (partCompletes (Payload.daily_time (Payload.daily raw)) _);
    cbn [bind]; reflexivity.
Qed.

Lemma Forall_indexed (A B : Type) (P : B -> Prop) (f : nat -> A -> B) (l : list A) :
  (forall i x, P (f i x)) -> forall i, Forall P (indexed f i l).
Proof.
  intros H. induction l as [|x r IH]; intros i; simpl; constructor; auto.
Qed.

Lemma optIndex_cut (A : Type) (n i : nat) (arr : option (list A)) :
  i < n -> optIndex (cut n arr) i = optIndex arr i.
Proof.
  intros H. destruct arr as [a|]; simpl; [|reflexivity].
  revert i n H. induction a as [|x r IH]; intros [|i] [|n] H; simpl;
    try reflexivity; try lia.
  apply IH. lia.
Qed.

Lemma present_cut (A : Type) (n : nat) (arr : option (list A)) :
  present (cut n arr) = present arr.
Proof. destruct arr; reflexivity. Qed.















End ClosedForm.

Import ClosedForm.

(** X10.  [mapToForecast] completes exactly when the current object is
    present, both time arrays are present and each of them either is empty
    or comes with all the arrays its records read; in every other case it
    raises a [TypeError].  In particular a payload without its current
    object never completes, and an empty time array completes even when the
    per-field arrays are missing. *)
Theorem mapToForecast_completes_exactly (city : Types.City)
  (raw : Payload.OpenMeteoForecastResponse) :
  ((exists f, mapToForecast city raw = Normal f) <-> completes raw = true) /\
  (mapToForecast city raw = Throw TypeError <-> completes raw = false).
Proof.
  rewrite mapToForecast_closed. destruct (completes raw); split; split;
    try discriminate; try reflexivity.
  - intros _. eexists. reflexivity.
  - intros [f H]. discriminate.
Qed.

(** A forecast that [mapToForecast] returns carries the city it was
    given, the provider's time zone and the fields of the provider's
    current object, which was there; the current conditions have no snow
    depth. *)
Theorem mapToForecast_passes_through (city : Types.City)
  (raw : Payload.OpenMeteoForecastResponse) (f : Runtime.WeatherForecast) :
  mapToForecast city raw = Normal f ->
  Runtime.city f = city /\
  Runtime.timezone f = Payload.timezone raw /\
  exists c, Payload.current raw = Some c /\
    Runtime.time (Runtime.current f) = Payload.time c /\
    Runtime.temperature2m (Runtime.current f) = Payload.temperature_2m c /\
    Runtime.windspeed10m (Runtime.current f) = Payload.windspeed_10m c /\
    Runtime.precipitation (Runtime.current f) = Payload.precipitation c /\
    Runtime.weathercode (Runtime.current f) = Payload.weathercode c /\
    Runtime.snowDepth (Runtime.current f) = None.
Proof.
  unfold mapToForecast.
  destruct (Payload.current raw) as [c|]; [|discriminate].
  cbn [properties bind].
  destruct (arrayMap _ (hourlyRecord _)); [|discriminate]. cbn [bind].
  destruct (arrayMap _ (dailyRecord _)); [|discriminate]. cbn [bind].
  intros H. inversion H; subst f. split; [reflexivity|].
  split; [reflexivity|]. exists c. repeat split.
Qed.

Lemma mapToForecast_passes_through_witness :
  exists f,
    mapToForecast someCity shortPayload = Normal f /\
    Runtime.city f = someCity /\
    Runtime.timezone f = Payload.timezone shortPayload /\
    Runtime.temperature2m (Runtime.current f) = Some (lit (-8)) /\
    Runtime.snowDepth (Runtime.current f) = None.
Proof.
  eexists. split; [reflexivity|].
  destruct (@mapToForecast_passes_through someCity shortPayload _ eq_refl)
    as (Hc & Ht & c & Ec & _ & Htemp & _ & _ & _ & Hs).
  inversion Ec; subst c.
  repeat split; assumption.
Defined.

(** X11.  When [mapToForecast] completes, the daily sequence has one record
    per element of the daily time array, in order, and record [i] holds
    element [i] of each daily array, [undefined] where the array is
    shorter. *)
Theorem mapToForecast_daily_records (city : Types.City)
  (raw : Payload.OpenMeteoForecastResponse) (f : Runtime.WeatherForecast)
  (dates : list string) :
  mapToForecast city raw = Normal f ->
  Payload.daily_time (Payload.daily raw) = Some dates ->
  List.length (Runtime.daily f) = List.length dates /\
  forall i date, nth_error dates i = Some date ->
    nth_error (Runtime.daily f) i = Some (dailyAt (Payload.daily raw) i date).
Proof.
  rewrite mapToForecast_closed. destruct (completes raw); [|discriminate].
  intros H Hd. inversion H; subst f. unfold built. cbn [Runtime.daily].
  rewrite Hd. cbn [timesOf]. split.
  - apply indexed_length.
  - intros i date Hi. rewrite indexed_nth_error, Hi. reflexivity.
Qed.

Lemma mapToForecast_daily_records_witness :
  exists f,
    mapToForecast someCity shortPayload = Normal f /\
    List.length (Runtime.daily f) = 1 /\
    nth_error (Runtime.daily f) 0
    = Some (dailyAt (Payload.daily shortPayload) 0 "2026-01-01").
Proof.
  eexists. split; [reflexivity|].
  destruct (@mapToForecast_daily_records someCity shortPayload _
              ["2026-01-01"%string] eq_refl eq_refl) as [L N].
  split; [exact L | exact (N 0 _ eq_refl)].
Defined.

(** X12.  When the payload has no snow depth array, every hourly record of
    the returned forecast has an [undefined] snow depth: no value, not
    zero. *)
Theorem absent_snow_depth_is_undefined (city : Types.City)
  (raw : Payload.OpenMeteoForecastResponse) (f : Runtime.WeatherForecast) :
  mapToForecast city raw = Normal f ->
  Payload.snow_depth (Payload.hourly raw) = None ->
  Forall (fun h => Runtime.snowDepth h = None) (Runtime.hourly f).
Proof.
  rewrite mapToForecast_closed. destruct (completes raw); [|discriminate].
  intros H Hs. inversion H; subst f. unfold built. cbn [Runtime.hourly].
  apply Forall_indexed. intros i x. unfold hourlyAt. cbn [Runtime.snowDepth].
  rewrite Hs. reflexivity.
Qed.

Lemma absent_snow_depth_is_undefined_witness :
  exists f,
    mapToForecast someCity shortPayload = Normal f /\
    Forall (fun h => Runtime.snowDepth h = None) (Runtime.hourly f).
Proof.
  eexists. split; [reflexivity|].
  exact (@absent_snow_depth_is_undefined someCity shortPayload _ eq_refl eq_refl).
Defined.

(** X13.  Whatever a per-field array holds past the end of its time array is
    never read: cutting every array to the length of its time array changes
    neither the forecast returned nor the exception raised. *)
Theorem mapToForecast_ignores_surplus (city : Types.City)
  (raw : Payload.OpenMeteoForecastResponse) :
  mapToForecast city (cutToTimes raw) = mapToForecast city raw.
Proof.
  rewrite !mapToForecast_closed.
  assert (C : completes (cutToTimes raw) = completes raw).
  { unfold completes, cutToTimes, requiredHourlyPresent, requiredDailyPresent.
    cbn [Payload.hourly Payload.daily Payload.hourly_time Payload.daily_time
         Payload.hourly_temperature_2m Payload.hourly_windspeed_10m
         Payload.hourly_precipitation Payload.hourly_weathercode
         Payload.temperature_2m_max Payload.temperature_2m_min
         Payload.precipitation_sum Payload.windspeed_10m_max
         Payload.daily_weathercode].
    rewrite !present_cut. reflexivity. }
  rewrite C. destruct (completes raw); [|reflexivity].
  f_equal. unfold built. f_equal.
  - cbn [cutToTimes Payload.hourly Payload.hourly_time].
    apply indexed_ext. intros k x Hk. cbn [Nat.add].
    unfold hourlyAt.
    cbn [Payload.hourly_temperature_2m Payload.hourly_windspeed_10m
         Payload.hourly_precipitation Payload.hourly_weathercode Payload.snow_depth].
    rewrite !optIndex_cut by exact Hk. reflexivity.
  - cbn [cutToTimes Payload.daily Payload.daily_time].
    apply indexed_ext. intros k x Hk. cbn [Nat.add].
    unfold dailyAt.
    cbn [Payload.temperature_2m_max Payload.temperature_2m_min
         Payload.precipitation_sum Payload.windspeed_10m_max
         Payload.daily_weathercode].
    rewrite !optIndex_cut by exact Hk. reflexivity.
Qed.



(* ------------------------------------------------------------------------- *)
(** ** Properties of the services *)
(* ------------------------------------------------------------------------- *)

Module TrimFacts.
Import JSString.

Lemma trimStart_blank_app (pre s : JSString.t) :
  blank pre = true -> trimStart (pre ++ s) = trimStart s.
Proof.
  induction pre as [|c r IH]; cbn [blank forallb app trimStart]; intros H.
  - reflexivity.
  - apply andb_prop in H. destruct H as [Hc Hr]. rewrite Hc. now apply IH.
Qed.

Lemma trimStart_blank (s : JSString.t) : blank s = true -> trimStart s = [].
Proof.
  intros H. rewrite <- (app_nil_r s). now rewrite trimStart_blank_app.
Qed.

Lemma blank_rev (s : JSString.t) : blank (rev s) = blank s.
Proof.
  unfold blank. apply eq_true_iff_eq. rewrite !forallb_forall.
  split; intros H x Hx; apply H; [now apply in_rev in Hx | now apply in_rev].
Qed.

Lemma blank_app (a b : JSString.t) : blank (a ++ b) = blank a && blank b.
Proof. apply forallb_app. Qed.

Lemma trimEnd_app_blank (s post : JSString.t) :
  blank post = true -> trimEnd (s ++ post) = trimEnd s.
Proof.
  intros H. unfold trimEnd. rewrite rev_app_distr.
  rewrite trimStart_blank_app; [reflexivity|]. now rewrite blank_rev.
Qed.

Lemma trimEnd_blank (s : JSString.t) : blank s = true -> trimEnd s = [].
Proof.
  intros H. unfold trimEnd. rewrite trimStart_blank; [reflexivity|].
  now rewrite blank_rev.
Qed.

(** Leading white space aside, a string either is blank or keeps whatever
    follows it. *)
Lemma trimStart_app (s post : JSString.t) :
  (blank s = true /\ trimStart s = []) \/
  (blank s = false /\ trimStart (s ++ post) = trimStart s ++ post).
Proof.
  induction s as [|c r IH]; cbn [blank forallb app trimStart].
  - left. split; reflexivity.
  - destruct (isWhiteSpace c); cbn [andb].
    + exact IH.
    + right. split; reflexivity.
Qed.

Lemma trim_surrounded (pre s post : JSString.t) :
  blank pre = true -> blank post = true -> trim (pre ++ s ++ post) = trim s.
Proof.
  intros Hpre Hpost. unfold trim. rewrite trimStart_blank_app by exact Hpre.
  destruct (trimStart_app s post) as [[Hb E]|[Hb E]].
  - rewrite E. rewrite trimStart_blank by (rewrite blank_app, Hb, Hpost; reflexivity).
    reflexivity.
  - rewrite E. now apply trimEnd_app_blank.
Qed.

Lemma trimStart_idem (s : JSString.t) : trimStart (trimStart s) = trimStart s.
Proof.
  induction s as [|c r IH]; cbn [trimStart]; [reflexivity|].
  destruct (isWhiteSpace c) eqn:E; [exact IH|]. cbn [trimStart]. now rewrite E.
Qed.

Lemma trimStart_head (s : JSString.t) (c : codeUnit) (r : JSString.t) :
  trimStart s = c :: r -> isWhiteSpace c = false.
Proof.
  induction s as [|c' r' IH]; cbn [trimStart]; [discriminate|].
  destruct (isWhiteSpace c') eqn:E; [exact IH|].
  intros H. inversion H; subst. exact E.
Qed.

Lemma trimEnd_cons (c : codeUnit) (r : JSString.t) :
  isWhiteSpace c = false -> exists w, trimEnd (c :: r) = c :: w.
Proof.
  intros Hc. unfold trimEnd. cbn [rev].
  destruct (trimStart_app (rev r) [c]) as [[Hb E]|[Hb E]].
  - rewrite trimStart_blank_app by exact Hb. cbn [trimStart]. rewrite Hc.
    exists []. reflexivity.
  - rewrite E, rev_app_distr. cbn [rev app]. eexists. reflexivity.
Qed.

Lemma trim_idem (s : JSString.t) : trim (trim s) = trim s.
Proof.
  unfold trim. destruct (trimStart s) as [|c r] eqn:E; [reflexivity|].
  pose proof (@trimStart_head _ _ _ E) as Hc.
  destruct (@trimEnd_cons c r Hc) as (w & Ew). rewrite Ew.
  cbn [trimStart]. rewrite Hc. rewrite <- Ew.
  unfold trimEnd. rewrite rev_involutive, trimStart_idem. reflexivity.
Qed.

(** The test [!query || query.trim().length < 2] *)
Lemma tooShort_trim (query : JSString.t) :
  (Nat.eqb (List.length query) 0 || Nat.ltb (List.length (trim query)) 2)%bool
  = Nat.ltb (List.length (trim query)) 2.
Proof.
  destruct query; [reflexivity|]. reflexivity.
Qed.

End TrimFacts.

Module ServiceFacts.
Import JSString OpenMeteoClient TrimFacts.

(** X15.  A query of fewer than two code units once trimmed (the empty
    query, a single letter, white space only) resolves to no city and sends
    no request to the provider. *)
Theorem searchCities_short_query (client : OpenMeteoClient.t)
  (query : JSString.t) (count : option number) (log : list request) :
  List.length (trim query) < 2 ->
  GeocodingService.searchCities client query count log = (Resolved [], log).
Proof.
  intros H. unfold GeocodingService.searchCities. rewrite tooShort_trim.
  apply Nat.ltb_lt in H. rewrite H. reflexivity.
Qed.

Lemma searchCities_short_query_witness :
  List.length (trim queryA) < 2 /\
  GeocodingService.searchCities someClient queryA None [] = (Resolved [], []).
Proof.
  split; [vm_compute; lia|].
  apply (searchCities_short_query someClient queryA None []).
  vm_compute. lia.
Defined.

(** X16.  A query of at least two code units once trimmed sends exactly one
    request, for the trimmed query (which trimming again leaves unchanged)
    and for the given count, 10 when none is given.  A rejection of the
    client is passed on unchanged; otherwise the result is one city per
    result of the provider, in the provider's order, and no city when the
    results are missing or empty. *)
Theorem searchCities_one_request (client : OpenMeteoClient.t)
  (query : JSString.t) (count : option number) (log : list request) :
  2 <= List.length (trim query) ->
  snd (GeocodingService.searchCities client query count log)
  = log ++ [SearchCities (trim query) (countOr10 count)] /\
  trim (trim query) = trim query /\
  fst (GeocodingService.searchCities client query count log)
  = match geocodingAnswer client log (trim query) (countOr10 count) with
    | Rejected r => Rejected r
    | Resolved response =>
        Resolved (map GeocodingService.mapToCity (resultsOf response))
    end.
Proof.
  intros H. unfold GeocodingService.searchCities. rewrite tooShort_trim.
  apply Nat.ltb_ge in H. rewrite H.
  unfold await, OpenMeteoClient.searchCities, countOr10.
  split; [|split; [apply trim_idem|]].
  - destruct (geocodingAnswer client log (trim query) _) as [response|r];
      [|reflexivity].
    unfold GeocodingService.noResults.
    destruct (results response) as [[|x rs]|]; reflexivity.
  - destruct (geocodingAnswer client log (trim query) _) as [response|r];
      [|reflexivity].
    unfold GeocodingService.noResults, resultsOf.
    destruct (results response) as [[|x rs]|]; reflexivity.
Qed.

Lemma searchCities_one_request_witness :
  2 <= List.length (trim queryLondonPadded) /\
  snd (GeocodingService.searchCities someClient queryLondonPadded (Some (lit 5)) [])
  = [SearchCities queryLondon (lit 5)] /\
  fst (GeocodingService.searchCities someClient queryLondonPadded (Some (lit 5)) [])
  = Resolved [GeocodingService.mapToCity capeTown].
Proof.
  split; [vm_compute; lia|].
  destruct (searchCities_one_request someClient queryLondonPadded
              (Some (lit 5)) []) as (Hlog & _ & Hres).
  - vm_compute. lia.
  - split; [exact Hlog | exact Hres].
Defined.

(** X17.  White space around the query makes no difference: the result and
    the requests sent are those of the query without it. *)
Theorem searchCities_ignores_surrounding_blanks (client : OpenMeteoClient.t)
  (pre query post : JSString.t) (count : option number) (log : list request) :
  blank pre = true -> blank post = true ->
  GeocodingService.searchCities client (pre ++ query ++ post) count log
  = GeocodingService.searchCities client query count log.
Proof.
  intros Hpre Hpost. unfold GeocodingService.searchCities.
  rewrite !tooShort_trim, (@trim_surrounded pre query post Hpre Hpost).
  reflexivity.
Qed.

Lemma searchCities_ignores_surrounding_blanks_witness :
  GeocodingService.searchCities someClient queryLondonPadded None []
  = GeocodingService.searchCities someClient queryLondon None [].
Proof.
  apply (searchCities_ignores_surrounding_blanks someClient
           [32; 32]%N queryLondon [32; 9]%N None []);
    reflexivity.
Defined.

(** X18.  The [citySuggestions] resolver asks [searchCities] for a number
    of cities that is never above 20: the count it was given when that is
    at most 20, 20 when it is more, and 10 when none was given. *)
Theorem citySuggestions_limit (client : OpenMeteoClient.t)
  (query : JSString.t) (count : option number) (log : list request) :
  exists limit,
    Resolvers.citySuggestions client query count log
    = GeocodingService.searchCities client query (Some limit) log /\
    (limit > lit 20)%js = false /\
    (count = None -> limit = lit 10) /\
    (forall c, count = Some c -> (c <= lit 20)%js = true -> limit = c) /\
    (forall c, count = Some c -> (c > lit 20)%js = true -> limit = lit 20).
Proof.
  eexists. split; [reflexivity|]. split; [apply Math_min_at_most|].
  split; [intros ->; vm_compute; reflexivity|]. split.
  - intros c -> H. apply Math_min_small. exact H.
  - intros c -> H. apply Math_min_large. exact H.
Qed.

Lemma citySuggestions_limit_witness :
  Resolvers.citySuggestions someClient queryLondon (Some (lit 50)) []
  = GeocodingService.searchCities someClient queryLondon (Some (lit 20)) [].
Proof.
  destruct (citySuggestions_limit someClient queryLondon (Some (lit 50)) [])
    as (limit & E & _ & _ & _ & Hbig).
  rewrite E. rewrite (Hbig (lit 50) eq_refl eq_refl). reflexivity.
Defined.

(** X19.  [getForecast] sends exactly one request, for the latitude,
    longitude and time zone of the city, whether it succeeds or not.  A
    rejection of the client is passed on unchanged; a payload on which the
    normaliser completes resolves to the normalised forecast, which carries
    the city; any other payload rejects with the normaliser's
    [TypeError]. *)
Theorem getForecast_one_request (client : OpenMeteoClient.t)
  (city : Types.City) (log : list request) :
  snd (ForecastService.getForecast client city log)
  = log ++ [GetWeatherForecast (Types.latitude city) (Types.longitude city)
              (Types.city_timezone city)] /\
  match forecastAnswer client log (Types.latitude city) (Types.longitude city)
          (Types.city_timezone city) with
  | Rejected r =>
      fst (ForecastService.getForecast client city log) = Rejected r
  | Resolved raw =>
      if completes raw
      then exists f,
             fst (ForecastService.getForecast client city log) = Resolved f /\
             WeatherService.mapToForecast city raw = WeatherService.Normal f /\
             Runtime.city f = city
      else fst (ForecastService.getForecast client city log)
           = Rejected (Raised WeatherService.TypeError)
  end.
Proof.
  unfold ForecastService.getForecast, await, getWeatherForecast.
  destruct (forecastAnswer client log _ _ _) as [raw|r].
  - rewrite mapToForecast_closed. destruct (completes raw); cbn.
    + split; [reflexivity|]. eexists. repeat split.
    + split; reflexivity.
  - split; reflexivity.
Qed.

End ServiceFacts.

(* ------------------------------------------------------------------------- *)
(** ** The ranking of an empty window *)
(* ------------------------------------------------------------------------- *)

(** X20.  A forecast without hourly records is ranked indoor sightseeing
    50, surfing 40, skiing 35, outdoor sightseeing 35, in this order (the
    tie keeps skiing before outdoor sightseeing), and no activity is
    suitable, whatever the rest of the forecast. *)
Theorem rankActivities_empty_window (forecast : WeatherForecast) :
  hourly forecast = [] ->
  map (fun a => (type a, score a, suitable a)) (rankActivities forecast)
  = [ (INDOOR_SIGHTSEEING, lit 50, false);
      (SURFING, lit 40, false);
      (SKIING, lit 35, false);
      (OUTDOOR_SIGHTSEEING, lit 35, false) ].
Proof.
  intros H. rewrite rankActivities_eq, H. vm_compute. reflexivity.
Qed.

Lemma rankActivities_empty_window_witness :
  map (fun a => (type a, score a, suitable a)) (rankActivities emptyForecast)
  = [ (INDOOR_SIGHTSEEING, lit 50, false);
      (SURFING, lit 40, false);
      (SKIING, lit 35, false);
      (OUTDOOR_SIGHTSEEING, lit 35, false) ].
Proof.
  apply (rankActivities_empty_window emptyForecast). reflexivity.
Defined.
